(** * The node-debug wrapper of vscode-react-native

    A shallow embedding of [src/debugger/nodeDebugWrapper.ts] and of the
    JavaScript and Node.js built-ins it calls, with the properties the
    specification states about it. *)

From Stdlib Require Import ZArith Lia Ascii DecimalString DecimalZ.
From stdpp Require Import base option list strings gmap.

Local Open Scope Z_scope.
Set Warnings "-register-all".

(** ** JavaScript values and the built-ins used by the wrapper *)

Module Js.

Definition MAX_SAFE_INTEGER : Z := 2 ^ 53 - 1.

Definition is_safe (n : Z) : bool := Z.abs n <=? MAX_SAFE_INTEGER.

(** The Numbers of the model: the integers up to [MAX_SAFE_INTEGER] in
    magnitude.  An IEEE double holds each of them exactly and Number::toString
    prints each with all its digits.  Fractions and larger magnitudes, which
    print rounded or in exponent form, are left out, as are NaN and the
    infinities, which have no JSON literal. *)
Record SafeInteger : Type := mkSafeInteger {
  safe_value : Z;
  safe_bound : is_safe safe_value = true
}.

Definition safe_or_zero (n : Z) (b : bool) : is_safe n = b -> SafeInteger :=
  match b with
  | true => fun H => mkSafeInteger n H
  | false => fun _ => mkSafeInteger 0 eq_refl
  end.

(** The Number for an integer within the safe range (zero outside it). *)
Definition safe (n : Z) : SafeInteger := safe_or_zero n (is_safe n) eq_refl.

(** The values that reach the wrapper come from a JSON launch configuration.
    Strings are sequences of 8-bit characters. *)
Inductive JsVal : Type :=
  | JUndefined
  | JNull
  | JBool (b : bool)
  | JNum (n : SafeInteger)
  | JStr (s : string)
  | JArr (elements : list JsVal)
  | JObj (properties : gmap string JsVal).

(** [Array.isArray]. *)
Definition isArray (v : JsVal) : bool :=
  match v with JArr _ => true | _ => false end.

(** ToBoolean, as applied by [||] and [if]. *)
Definition truthy (v : JsVal) : bool :=
  match v with
  | JUndefined | JNull => false
  | JBool b => b
  | JNum n => negb (safe_value n =? 0)
  | JStr s => negb (String.eqb s "")
  | JArr _ | JObj _ => true
  end.

(** [a || b]. *)
Definition or_else (a b : JsVal) : JsVal := if truthy a then a else b.

(** The decimal digits of an integer, with a leading minus sign when it is
    negative. *)
Definition decimal (n : Z) : string :=
  NilZero.string_of_int (Z.to_int n).

(** Number::toString. *)
Definition Number_toString (n : SafeInteger) : string :=
  decimal (safe_value n).

(** The loop of [Array.prototype.join]: elements are converted by [f] and
    separated by [sep]. *)
Definition join_with (f : JsVal -> string) (sep : string) : list JsVal -> string :=
  fix go (l : list JsVal) : string :=
    match l with
    | [] => ""
    | [x] => f x
    | x :: rest => f x +:+ sep +:+ go rest
    end.

(** ToString.  Inside [join] an undefined or null element becomes the empty
    string; a plain object prints as [[object Object]]. *)
Fixpoint ToString (v : JsVal) : string :=
  match v with
  | JUndefined => "undefined"
  | JNull => "null"
  | JBool true => "true"
  | JBool false => "false"
  | JNum n => Number_toString n
  | JStr s => s
  | JArr l =>
      join_with (fun x => match x with
                          | JUndefined | JNull => ""
                          | _ => ToString x
                          end) "," l
  | JObj _ => "[object Object]"
  end.

Definition join_element (x : JsVal) : string :=
  match x with
  | JUndefined | JNull => ""
  | _ => ToString x
  end.

(** [arr.join(sep)]. *)
Definition join (l : list JsVal) (sep : string) : string :=
  join_with join_element sep l.

(** Property read [v.key].  Reading a property of undefined or null raises a
    TypeError ([None]); a missing property is undefined.  The primitive
    wrappers have none of the properties the wrapper reads. *)
Definition get (v : JsVal) (key : string) : option JsVal :=
  match v with
  | JUndefined | JNull => None
  | JObj o => Some (default JUndefined (o !! key))
  | _ => Some JUndefined
  end.

(** StrWhiteSpaceChar within the 8-bit range: TAB, LF, VT, FF, CR, SP, NBSP. *)
Definition isWhiteSpace (c : ascii) : bool :=
  let n := N_of_ascii c in
  ((9 <=? n) && (n <=? 13) || (n =? 32) || (n =? 160))%N.

Fixpoint trimStart (s : string) : string :=
  match s with
  | String c r => if isWhiteSpace c then trimStart r else s
  | EmptyString => s
  end.

Definition digit_of_ascii (c : ascii) : option (Decimal.uint -> Decimal.uint) :=
  match c with
  | "0"%char => Some Decimal.D0
  | "1"%char => Some Decimal.D1
  | "2"%char => Some Decimal.D2
  | "3"%char => Some Decimal.D3
  | "4"%char => Some Decimal.D4
  | "5"%char => Some Decimal.D5
  | "6"%char => Some Decimal.D6
  | "7"%char => Some Decimal.D7
  | "8"%char => Some Decimal.D8
  | "9"%char => Some Decimal.D9
  | _ => None
  end.

(** The longest prefix of decimal digits. *)
Fixpoint digit_prefix (s : string) : Decimal.uint :=
  match s with
  | String c r =>
      match digit_of_ascii c with
      | Some d => d (digit_prefix r)
      | None => Decimal.Nil
      end
  | EmptyString => Decimal.Nil
  end.

(** [parseInt(v, 10)]; [None] is NaN, and a signed zero is zero.  The result
    is the integer the digits denote; the Number it is rounded to differs
    from it only beyond [MAX_SAFE_INTEGER], where neither is zero and neither
    is a port. *)
Definition parseInt10 (v : JsVal) : option Z :=
  let inputString := trimStart (ToString v) in
  let '(sign, rest) :=
    match inputString with
    | String "-" r => (-1, r)
    | String "+" r => (1, r)
    | _ => (1, inputString)
    end in
  match digit_prefix rest with
  | Decimal.Nil => None
  | d => Some (sign * Z.of_uint d)
  end.

(** [parseInt(v, 10) || dflt]: NaN and zero are falsy. *)
Definition parseInt10_or (v : JsVal) (dflt : Z) : Z :=
  match parseInt10 v with
  | Some n => if n =? 0 then dflt else n
  | None => dflt
  end.


End Js.

(** ** Node's [path.resolve] (POSIX flavour) *)

Module Path.

(** [str.split("/")]. *)
Fixpoint split (s : string) : list string :=
  match s with
  | EmptyString => [""]
  | String "/" r => "" :: split r
  | String c r =>
      match split r with
      | seg :: segs => String c seg :: segs
      | [] => [String c ""]
      end
  end.

(** [parts.join("/")]. *)
Fixpoint join (parts : list string) : string :=
  match parts with
  | [] => ""
  | [p] => p
  | p :: rest => p +:+ "/" +:+ join rest
  end.

(** The normalisation loop: [res] is the stack of kept segments, last
    segment first.  Empty and ["."] segments are dropped, [".."] removes the
    segment before it, or is kept when there is none and the path may climb
    above its start. *)
Fixpoint normalizeArray (parts : list string) (allowAboveRoot : bool)
    (res : list string) : list string :=
  match parts with
  | [] => rev res
  | p :: rest =>
      if String.eqb p "" || String.eqb p "." then
        normalizeArray rest allowAboveRoot res
      else if String.eqb p ".." then
        match res with
        | top :: below =>
            if String.eqb top ".." then
              normalizeArray rest allowAboveRoot
                (if allowAboveRoot then ".." :: res else res)
            else normalizeArray rest allowAboveRoot below
        | [] =>
            normalizeArray rest allowAboveRoot
              (if allowAboveRoot then [".."] else [])
        end
      else normalizeArray rest allowAboveRoot (p :: res)
  end.

Definition isAbsolute (p : string) : bool :=
  match p with String "/" _ => true | _ => false end.

(** The right-to-left scan of [resolve]: arguments are prepended until an
    absolute one is met; [paths] is given last argument first. *)
Fixpoint prepend_until_absolute (paths : list string) (resolvedPath : string)
    : string * bool :=
  match paths with
  | [] => (resolvedPath, false)
  | p :: rest =>
      if String.eqb p "" then prepend_until_absolute rest resolvedPath
      else
        let resolvedPath := p +:+ "/" +:+ resolvedPath in
        if isAbsolute p then (resolvedPath, true)
        else prepend_until_absolute rest resolvedPath
  end.

(** [path.resolve(...paths)] in a process whose working directory is [cwd]. *)
Definition resolve (cwd : string) (paths : list string) : string :=
  let '(resolvedPath, resolvedAbsolute) :=
    prepend_until_absolute (rev paths ++ [cwd]) "" in
  let normalized :=
    join (normalizeArray (split resolvedPath) (negb resolvedAbsolute) []) in
  if resolvedAbsolute then "/" +:+ normalized
  else if String.eqb normalized "" then "." else normalized.

(** A segment without separator. *)
Fixpoint no_slash (s : string) : bool :=
  match s with
  | EmptyString => true
  | String c r => negb (Ascii.eqb c "/") && no_slash r
  end.

(** A segment that names a file or directory: not empty, not ["."] or
    [".."], and without separator. *)
Definition is_name (s : string) : bool :=
  no_slash s && negb (String.eqb s "") && negb (String.eqb s ".")
  && negb (String.eqb s "..").

End Path.

(** ** The platform of an app whose packager runs elsewhere *)

(** [src/debugger/externalPlatform.ts]. *)
Module ExternalPlatform.
Import Js.

(** A remote extension: the one [RemoteExtension.atProjectRootPath] makes
    for a project root, or one handed to the constructor. *)
Inductive RemoteExtension : Type :=
  | AtProjectRootPath (projectRoot : string)
  | Supplied (id : nat).

(** A Q promise: settled one way or the other, or never. *)
Inductive Promise (A : Type) : Type :=
  | Resolved (value : A)
  | Rejected (reason : JsVal)
  | Pending.
Arguments Resolved {A} value.
Arguments Rejected {A} reason.
Arguments Pending {A}.

(** How a call completes. *)
Inductive Completion (A : Type) : Type :=
  | Returns (a : A)
  | Throws (exception : JsVal).
Arguments Returns {A} a.
Arguments Throws {A} exception.

Inductive Effect : Type :=
  | LogMessage (message : string)
  | MakeRemoteExtension (projectRoot : string)
  | GetPackagerPort (extension : RemoteExtension).

(** The collaborators: whether making a remote extension for a root throws,
    and how [getPackagerPort] of an extension completes. *)
Record Env : Type := mkEnv {
  make_throws : string -> option JsVal;
  packagerPort : RemoteExtension -> Completion (Promise JsVal)
}.

(** The one field of [IRunOptions] the platform reads. *)
Record IRunOptions : Type := mkRunOptions {
  projectRoot : string
}.

Record Platform : Type := mkPlatform {
  runOptions : IRunOptions;
  projectPath : string;
  remoteExtension : RemoteExtension
}.

(** What a call did, in order, and how it completed. *)
Definition Run (A : Type) : Type := list Effect * Completion A.

(** [Log.logMessage(message)]. *)
Definition logMessage (message : string) : Run unit :=
  ([LogMessage message], Returns tt).

(** [promise.then(onFulfilled)]: the callback runs only on fulfilment; what
    it throws rejects the new promise. *)
Definition Promise_then {A} (p : Promise A) (onFulfilled : A -> Run unit)
    : list Effect * Promise unit :=
  match p with
  | Resolved value =>
      match onFulfilled value with
      | (effs, Returns _) => (effs, Resolved tt)
      | (effs, Throws e) => (effs, Rejected e)
      end
  | Rejected reason => ([], Rejected reason)
  | Pending => ([], Pending)
  end.

(** The constructor.  Its second argument may be left out ([None]) or be an
    object with or without a [remoteExtension]; the default is evaluated
    only when none is given. *)
Definition constructor (env : Env) (runOptions : IRunOptions)
    (options : option (option RemoteExtension)) : Run Platform :=
  let options := default None options in
  match options with
  | Some remoteExtension =>
      ([], Returns (mkPlatform runOptions (projectRoot runOptions) remoteExtension))
  | None =>
      match make_throws env (projectRoot runOptions) with
      | Some e => ([MakeRemoteExtension (projectRoot runOptions)], Throws e)
      | None =>
          ([MakeRemoteExtension (projectRoot runOptions)],
           Returns (mkPlatform runOptions (projectRoot runOptions)
                      (AtProjectRootPath (projectRoot runOptions))))
      end
  end.

Definition runApp (this : Platform) : Run (Promise unit) :=
  let '(effs, _) :=
    logMessage
      "Conected to running packager. You can now open your app in the simulator." in
  (effs, Returns (Resolved tt)).

Definition enableJSDebuggingMode (this : Platform) : Run (Promise unit) :=
  let '(effs, _) := logMessage "Debugger ready. Enable remote debugging in app." in
  (effs, Returns (Resolved tt)).

Definition startPackager (env : Env) (this : Platform) : Run (Promise unit) :=
  match packagerPort env (remoteExtension this) with
  | Throws e => ([GetPackagerPort (remoteExtension this)], Throws e)
  | Returns promise =>
      let '(effs, after) :=
        Promise_then promise
          (fun port =>
             logMessage ("Attaching to running packager at port: " +:+ ToString port)) in
      (GetPackagerPort (remoteExtension this) :: effs, Returns after)
  end.

(** The remote extensions asked for their port, among some effects. *)
Fixpoint asked (l : list Effect) : list RemoteExtension :=
  match l with
  | [] => []
  | GetPackagerPort extension :: rest => extension :: asked rest
  | _ :: rest => asked rest
  end.

(** A packager answers on port 8081. *)
Definition packager_env : Env :=
  mkEnv (fun _ => None) (fun _ => Returns (Resolved (JNum (safe 8081)))).

End ExternalPlatform.

(** ** The wrapper *)

Module NodeDebugWrapper.
Import Js.

(** An [Error] instance, as the server's ["error"] event carries one. *)
Record JsError : Type := mkError {
  error_name : string;
  error_message : string
}.

(** [err.toString()] of an Error. *)
Definition Error_toString (e : JsError) : string :=
  if String.eqb (error_message e) "" then error_name e
  else if String.eqb (error_name e) "" then error_message e
  else error_name e +:+ ": " +:+ error_message e.

(** What a call may throw and a promise may be rejected with: an [Error]
    instance, or any other value, null and undefined among them. *)
Inductive Thrown : Type :=
  | ErrorObject (name message : string)
  | ThrownValue (v : JsVal).

Definition TypeError (message : string) : Thrown := ErrorObject "TypeError" message.

Definition RangeError (message : string) : Thrown := ErrorObject "RangeError" message.

(** ToString of a thrown value, as a template literal applies it. *)
Definition Thrown_toString (t : Thrown) : string :=
  match t with
  | ErrorObject name message => Error_toString (mkError name message)
  | ThrownValue v => ToString v
  end.

(** The receiver [this] of a handler: a live session instance, or none. *)
Inductive Receiver : Type :=
  | NoReceiver
  | Session (id : nat).

Inductive ProtocolEvent : Type :=
  | InitializedEvent
  | OutputEvent (output : string) (category : option string).

(** The three caches of a session's [_sourceMaps] object. *)
Record SourceMaps : Type := mkSourceMaps {
  _allSourceMaps : gmap string string;
  _generatedToSourceMaps : gmap string string;
  _sourceToGeneratedMaps : gmap string string
}.

(** A function stored in the session prototype: one of node-debug's own
    methods, or one of the two closures the wrapper installs, together with
    the [originalRequest] it captured. *)
Inductive Method : Type :=
  | Native (name : string)
  | LaunchWrapper (originalRequest : option Method)
  | DisconnectWrapper (originalRequest : option Method).

(** [NodeDebugSession.prototype]: the operation table shared by all sessions. *)
Abbreviation Prototype := (gmap string Method).

(** A server made by [http.createServer] whose [listen] was called and whose
    ["error"] listener is registered; its listeners close over [this]. *)
Record Server : Type := mkServer {
  server_this : Receiver;
  server_port : Z
}.

(** The reactions that [finally] and [done] registered on the promise of
    [stopMonitoringLogcat], waiting for it to settle, with the variables
    their callbacks close over. *)
Record PendingStop : Type := mkPendingStop {
  pending_original : option Method;
  pending_this : Receiver;
  pending_response : JsVal;
  pending_args : JsVal
}.

(** A settled Q promise. *)
Inductive Settlement : Type :=
  | Fulfilled
  | Rejected (reason : Thrown).

(** Everything the wrapper does to the outside, in order. *)
Inductive Effect : Type :=
  | TelemetryReassign (appName version key projectRoot : string)
  | HttpCreateServer
  | HttpListen (port : Z)
  | HttpEnd (statusCode : Z)
  | TelemetrySimpleEvent (name : string)
  | SendEvent (session : nat) (e : ProtocolEvent)
  | NativeCall (name : string) (this : Receiver) (request args : JsVal)
  | AtProjectRootPath (projectRoot : option string)
  | StopMonitoringLogcat
  | StderrWrite (text : string)
  | UncaughtException (e : Thrown).

(** The wrapper, the sessions and the process around them: the wrapper's
    project root, the source maps of the sessions that have some, the
    servers that were told to listen, the ports this process holds, the
    promise reactions that wait for their turn, and the effects so far. *)
Record World : Type := mkWorld {
  projectRootPath : option string;
  sourceMaps : gmap nat SourceMaps;
  servers : list Server;
  listening : list Z;
  pendingStops : list PendingStop;
  pendingDones : list Settlement;
  effects : list Effect
}.

(** How the remote extension answers a disconnect. *)
Inductive RemoteOutcome : Type :=
  | ConstructionThrows (exception : Thrown)
  | StopThrows (exception : Thrown)
  | StopResolves
  | StopRejects (reason : Thrown)
  | StopPending.

(** The collaborators the wrapper cannot see into: the working directory,
    how each of node-debug's own methods completes ([None]: it returns),
    the remote extension, the ports that something outside this process
    holds, with the error that binding one of them gives, and the wording
    of the RangeError of [listen], which is the Node version's.  The
    telemetry calls and [http.createServer] return. *)
Record Env : Type := mkEnv {
  cwd : string;
  native_outcome : string -> option Thrown;
  remote : RemoteOutcome;
  port_in_use : Z -> option JsError;
  bad_port_message : Z -> string
}.

(** The ports [listen] accepts; for any other it throws a RangeError. *)
Definition legal_port (port : Z) : bool := (0 <=? port) && (port <=? 65535).

(** The error of binding a port that this process holds already. *)
Definition EADDRINUSE (port : Z) : JsError :=
  mkError "Error" ("listen EADDRINUSE :::" +:+ decimal port).

(** How [listen] goes: a port out of range is refused at the call; a port
    that is taken, outside or by a server of this process, fails to bind,
    which an ["error"] event on the server reports later. *)
Inductive ListenOutcome : Type :=
  | BadPort
  | Bound
  | BindFails (err : JsError).

Definition listen_outcome (env : Env) (held : list Z) (port : Z) : ListenOutcome :=
  if negb (legal_port port) then BadPort
  else
    match port_in_use env port with
    | Some err => BindFails err
    | None => if bool_decide (port ∈ held) then BindFails (EADDRINUSE port) else Bound
    end.

(** *** Computations that change the world and may throw *)

Inductive Result (A : Type) : Type :=
  | Return (a : A)
  | Throws (e : Thrown).
Arguments Return {A} a.
Arguments Throws {A} e.

Definition M (A : Type) : Type := World -> Result A * World.

Definition ret {A} (a : A) : M A := fun w => (Return a, w).

Definition bind {A B} (m : M A) (k : A -> M B) : M B :=
  fun w =>
    match m w with
    | (Return a, w') => k a w'
    | (Throws e, w') => (Throws e, w')
    end.

Definition throw {A} (e : Thrown) : M A := fun w => (Throws e, w).

(** [try { m } catch (e) { handler e }]. *)
Definition try_catch {A} (m : M A) (handler : Thrown -> M A) : M A :=
  fun w =>
    match m w with
    | (Return a, w') => (Return a, w')
    | (Throws e, w') => handler e w'
    end.

(** Runs [m] and hands back how it completed. *)
Definition attempt {A} (m : M A) : M (Result A) :=
  fun w => let '(r, w') := m w in (Return r, w').

Definition emit (e : Effect) : M unit :=
  fun w =>
    (Return tt,
     mkWorld (projectRootPath w) (sourceMaps w) (servers w) (listening w)
       (pendingStops w) (pendingDones w) (effects w ++ [e])).

Notation "x <- m ;; k" := (bind m (fun x => k))
  (at level 100, m at next level, right associativity).
Notation "m ;; k" := (bind m (fun _ => k))
  (at level 100, right associativity).

Definition gets {A} (f : World -> A) : M A := fun w => (Return (f w), w).

Definition set_projectRootPath (root : string) : M unit :=
  fun w =>
    (Return tt,
     mkWorld (Some root) (sourceMaps w) (servers w) (listening w)
       (pendingStops w) (pendingDones w) (effects w)).

Definition set_sourceMaps (id : nat) (sm : SourceMaps) : M unit :=
  fun w =>
    (Return tt,
     mkWorld (projectRootPath w) (<[id := sm]> (sourceMaps w)) (servers w)
       (listening w) (pendingStops w) (pendingDones w) (effects w)).

Definition add_server (srv : Server) : M unit :=
  fun w =>
    (Return tt,
     mkWorld (projectRootPath w) (sourceMaps w) (servers w ++ [srv])
       (listening w) (pendingStops w) (pendingDones w) (effects w)).

Definition add_listening (port : Z) : M unit :=
  fun w =>
    (Return tt,
     mkWorld (projectRootPath w) (sourceMaps w) (servers w)
       (listening w ++ [port]) (pendingStops w) (pendingDones w) (effects w)).

Definition set_pendingStops (l : list PendingStop) : M unit :=
  fun w =>
    (Return tt,
     mkWorld (projectRootPath w) (sourceMaps w) (servers w) (listening w) l
       (pendingDones w) (effects w)).

Definition set_pendingDones (l : list Settlement) : M unit :=
  fun w =>
    (Return tt,
     mkWorld (projectRootPath w) (sourceMaps w) (servers w) (listening w)
       (pendingStops w) l (effects w)).

Fixpoint for_each {A} (f : A -> M unit) (l : list A) : M unit :=
  match l with
  | [] => ret tt
  | a :: rest => f a ;; for_each f rest
  end.

Definition LF : string := String (ascii_of_nat 10) "".

(** *** Built-ins with effects *)

(** [v.key] as a statement that may throw. *)
Definition read (v : JsVal) (key : string) : M JsVal :=
  match get v key with
  | Some x => ret x
  | None =>
      throw (TypeError ("Cannot read property '" +:+ key +:+ "' of " +:+ ToString v))
  end.

(** [v.key = x]; assigning to a property of a primitive does nothing. *)
Definition write (v : JsVal) (key : string) (x : JsVal) : JsVal :=
  match v with
  | JObj o => JObj (<[key := x]> o)
  | _ => v
  end.

(** [arr.concat(items)]. *)
Definition concat (arr : JsVal) (items : list JsVal) : M JsVal :=
  match arr with
  | JArr l => ret (JArr (l ++ items))
  | _ => throw (TypeError "concat is not a function")
  end.

(** [this.sendEvent(e)]. *)
Definition sendEvent (this : Receiver) (e : ProtocolEvent) : M unit :=
  match this with
  | Session id => emit (SendEvent id e)
  | NoReceiver => throw (TypeError "Cannot read property 'sendEvent' of undefined")
  end.

(** [t.message] of a caught or rejected value: the message of an Error, a
    property read of anything else, which throws for null and undefined. *)
Definition read_message (t : Thrown) : M JsVal :=
  match t with
  | ErrorObject _ message => ret (JStr message)
  | ThrownValue v => read v "message"
  end.

(** The text of [t.message || t] inside a template literal. *)
Definition message_or_reason (t : Thrown) : M string :=
  message <- read_message t ;;
  ret (if truthy message then ToString message else Thrown_toString t).

(** How [message_or_reason] completes; it reads no state. *)
Definition message_text (t : Thrown) : Result string :=
  match t with
  | ErrorObject _ message =>
      Return (if truthy (JStr message) then message else Thrown_toString t)
  | ThrownValue v =>
      match get v "message" with
      | Some message =>
          Return (if truthy message then ToString message else ToString v)
      | None =>
          Throws (TypeError ("Cannot read property 'message' of " +:+ ToString v))
      end
  end.

(** [promise.finally(callback)]: the callback runs whatever the outcome; the
    outcome is kept unless the callback itself throws. *)
Definition Q_finally (p : Settlement) (callback : M unit) : M Settlement :=
  r <- attempt callback ;;
  match r with
  | Return _ => ret p
  | Throws e => ret (Rejected e)
  end.

(** [promise.done(onFulfilled, onRejected)]: what a handler throws is thrown
    again outside every handler, as an uncaught exception of the process. *)
Definition Q_done (p : Settlement) (onFulfilled : M unit)
    (onRejected : Thrown -> M unit) : M unit :=
  r <- attempt match p with
               | Fulfilled => onFulfilled
               | Rejected reason => onRejected reason
               end ;;
  match r with
  | Return _ => ret tt
  | Throws e => emit (UncaughtException e)
  end.

Section Wrapper.

Variable env : Env.

(** The constructor's [appName] and [version]. *)
Variables (appName version : string).

(** [Telemetry.APPINSIGHTS_INSTRUMENTATIONKEY] and
    [IOSPlatform.DEFAULT_IOS_PROJECT_RELATIVE_PATH]: constants of modules
    this file does not embed. *)
Variable APPINSIGHTS_INSTRUMENTATIONKEY : string.
Variable DEFAULT_IOS_PROJECT_RELATIVE_PATH : string.

(** [path.resolve(a, b)]; an argument that is not a string is a TypeError. *)
Definition path_resolve (a : JsVal) (b : string) : M string :=
  match a with
  | JStr p => ret (Path.resolve (cwd env) [p; b])
  | _ => throw (TypeError "Path must be a string")
  end.

(** A call of one of node-debug's own methods. *)
Definition call_native (name : string) (this : Receiver) (request args : JsVal)
    : M unit :=
  emit (NativeCall name this request args) ;;
  match native_outcome env name with
  | None => ret tt
  | Some e => throw e
  end.

(** [RemoteExtension.atProjectRootPath(root)]. *)
Definition atProjectRootPath (root : option string) : M unit :=
  emit (AtProjectRootPath root) ;;
  match remote env with
  | ConstructionThrows e => throw e
  | _ => ret tt
  end.

(** [remoteExtension.stopMonitoringLogcat()]: the call itself may throw;
    otherwise it returns a promise. *)
Definition stopMonitoringLogcat : M unit :=
  emit StopMonitoringLogcat ;;
  match remote env with
  | StopThrows e => throw e
  | _ => ret tt
  end.

(** How the promise of [stopMonitoringLogcat] eventually settles, if ever. *)
Definition stop_settlement : option Settlement :=
  match remote env with
  | StopResolves => Some Fulfilled
  | StopRejects reason => Some (Rejected reason)
  | _ => None
  end.

(** [reinitializeServer.listen(port)] followed by the registration of the
    ["error"] listener: a port out of range makes [listen] throw. *)
Definition listen (this : Receiver) (port : Z) : M unit :=
  if legal_port port then
    emit (HttpListen port) ;;
    add_server (mkServer this port)
  else throw (RangeError (bad_port_message env port)).

Definition isNullOrUndefined (value : JsVal) : bool :=
  match value with
  | JUndefined | JNull => true
  | _ => false
  end.

Definition parseLogCatArguments (userProvidedLogCatArguments : JsVal) : JsVal :=
  if isArray userProvidedLogCatArguments then
    match userProvidedLogCatArguments with
    | JArr elements => JStr (join elements " ")
    | _ => userProvidedLogCatArguments
    end
  else userProvidedLogCatArguments.

(** The private helper [attachRequest]: [launchRequest.call(debugSession,
    request, args)], where [launchRequest] is given by what calling it does. *)
Definition attachRequest (launchRequest : Receiver -> JsVal -> JsVal -> M unit)
    (debugSession : Receiver) (request args : JsVal) : M unit :=
  launchRequest debugSession request args.

(** The request listener given to [http.createServer]. *)
Definition requestListener (this : Receiver) (url : string) : M unit :=
  let statusCode := 404 in
  if String.eqb url "/refreshBreakpoints" then
    let statusCode := 200 in
    match this with
    | Session id =>
        sm <- gets (fun w => sourceMaps w !! id) ;;
        match sm with
        | Some _ => set_sourceMaps id (mkSourceMaps ∅ ∅ ∅)
        | None => ret tt
        end ;;
        sendEvent this InitializedEvent
    | NoReceiver => ret tt
    end ;;
    emit (HttpEnd statusCode)
  else emit (HttpEnd statusCode).

(** The listener of the server's ["error"] event. *)
Definition errorListener (this : Receiver) (err : JsError) : M unit :=
  emit (TelemetrySimpleEvent "reinitializeServerError") ;;
  sendEvent this
    (OutputEvent ("Error in debug adapter server: " +:+ Error_toString err)
       (Some "stderr")) ;;
  sendEvent this
    (OutputEvent
       "Breakpoints may not update. Consider restarting and specifying a different 'internalDebuggerPort' in launch.json"
       None).

(** The function that [customizeLaunchRequest] stores in the prototype;
    [originalRequest] is given by what calling it does.  The port that
    [listen] accepted is a Number on which [safe] is the identity. *)
Definition wrapped_launchRequest
    (originalRequest : Receiver -> JsVal -> JsVal -> M unit)
    (this : Receiver) (request args : JsVal) : M unit :=
  program <- read args "program" ;;
  root <- path_resolve program "../.." ;;
  set_projectRootPath root ;;
  emit (TelemetryReassign appName version APPINSIGHTS_INSTRUMENTATIONKEY root) ;;
  emit HttpCreateServer ;;
  internalDebuggerPort <- read args "internalDebuggerPort" ;;
  let debugServerListeningPort := parseInt10_or internalDebuggerPort 9090 in
  listen this debugServerListeningPort ;;
  platform <- read args "platform" ;;
  iosRelativeProjectPath <- read args "iosRelativeProjectPath" ;;
  target <- read args "target" ;;
  let args :=
    write args "args"
      (JArr [ platform;
              JStr (Number_toString (safe debugServerListeningPort));
              if negb (isNullOrUndefined iosRelativeProjectPath)
              then iosRelativeProjectPath
              else JStr DEFAULT_IOS_PROJECT_RELATIVE_PATH;
              or_else target (JStr "simulator") ]) in
  logCatArguments <- read args "logCatArguments" ;;
  args <-
    (if negb (isNullOrUndefined logCatArguments) then
       current <- read args "args" ;;
       extended <- concat current [parseLogCatArguments logCatArguments] ;;
       ret (write args "args" extended)
     else ret args) ;;
  attachRequest originalRequest this request args.

(** The function that [customizeDisconnectRequest] stores in the prototype.
    The callbacks given to [finally] and [done] run when the promise
    settles, see [run_finally] and [run_done]. *)
Definition wrapped_disconnectRequest (originalRequest : option Method)
    (originalRequest_call : Receiver -> JsVal -> JsVal -> M unit)
    (this : Receiver) (response args : JsVal) : M unit :=
  try_catch
    (root <- gets projectRootPath ;;
     atProjectRootPath root ;;
     stopMonitoringLogcat ;;
     pending <- gets pendingStops ;;
     set_pendingStops (pending ++ [mkPendingStop originalRequest this response args]))
    (fun exception =>
       text <- message_or_reason exception ;;
       emit (StderrWrite
               ("WARNING: Couldn't stop monitoring logcat. Sync exception: "
                +:+ text +:+ LF)) ;;
       originalRequest_call this response args).

(** [m.call(this, request, args)] for a function of the prototype. *)
Fixpoint invoke (m : Method) (this : Receiver) (request args : JsVal) : M unit :=
  let call (f : option Method) : Receiver -> JsVal -> JsVal -> M unit :=
    match f with
    | Some original => invoke original
    | None =>
        fun _ _ _ => throw (TypeError "Cannot read property 'call' of undefined")
    end in
  match m with
  | Native name => call_native name this request args
  | LaunchWrapper originalRequest =>
      wrapped_launchRequest (call originalRequest) this request args
  | DisconnectWrapper originalRequest =>
      wrapped_disconnectRequest originalRequest (call originalRequest)
        this request args
  end.

(** [f.call(this, request, args)] where [f] may be undefined. *)
Definition call (f : option Method) (this : Receiver) (request args : JsVal)
    : M unit :=
  match f with
  | Some m => invoke m this request args
  | None => throw (TypeError "Cannot read property 'call' of undefined")
  end.

(** *** The reactions of the disconnect promise *)

(** The reaction that [finally] registered, run once the promise of
    [stopMonitoringLogcat] has settled as [outcome]: the original disconnect
    is called, and the promise that [finally] returned settles, which makes
    the reaction of [done] wait for its turn. *)
Definition run_finally (p : PendingStop) (outcome : Settlement) : M unit :=
  after <- Q_finally outcome
             (call (pending_original p) (pending_this p) (pending_response p)
                (pending_args p)) ;;
  dones <- gets pendingDones ;;
  set_pendingDones (dones ++ [after]).

(** The reaction that [done] registered. *)
Definition run_done (after : Settlement) : M unit :=
  Q_done after (ret tt)
    (fun reason =>
       text <- message_or_reason reason ;;
       emit (StderrWrite
               ("WARNING: Couldn't stop monitoring logcat: " +:+ text +:+ LF))).

(** What the event loop may do next: let the promise of the [i]-th waiting
    disconnect settle and run its [finally] reaction, or run the [i]-th
    waiting [done] reaction.  Which of the waiting reactions comes first is
    for the event loop to say. *)
Inductive Job : Type :=
  | StopSettles (i : nat)
  | DoneReaction (i : nat).

Definition run_job (j : Job) : M unit :=
  match j with
  | StopSettles i =>
      stops <- gets pendingStops ;;
      match stops !! i, stop_settlement with
      | Some p, Some outcome =>
          set_pendingStops (delete i stops) ;;
          run_finally p outcome
      | _, _ => ret tt
      end
  | DoneReaction i =>
      dones <- gets pendingDones ;;
      match dones !! i with
      | Some after =>
          set_pendingDones (delete i dones) ;;
          run_done after
      | None => ret tt
      end
  end.

Definition run_schedule (schedule : list Job) : M unit :=
  for_each run_job schedule.

(** *** Installation *)

(** The three installers take the prototype and give back the changed one,
    or raise. *)
Definition customizeLaunchRequest (proto : Prototype) : Result Prototype :=
  let originalRequest := proto !! "launchRequest" in
  Return (<["launchRequest" := LaunchWrapper originalRequest]> proto).

Definition customizeDisconnectRequest (proto : Prototype) : Result Prototype :=
  let originalRequest := proto !! "disconnectRequest" in
  Return (<["disconnectRequest" := DisconnectWrapper originalRequest]> proto).

Definition customizeNodeAdapterRequests (proto : Prototype) : Result Prototype :=
  match customizeLaunchRequest proto with
  | Return proto => customizeDisconnectRequest proto
  | Throws e => Throws e
  end.

(** Whether a slot of the prototype holds one of the wrapper's closures. *)
Definition is_wrapped (slot : option Method) : bool :=
  match slot with
  | Some (LaunchWrapper _) | Some (DisconnectWrapper _) => true
  | _ => false
  end.

(** *** The protocol driver and the event loop *)

(** A request dispatched to a session: the method is looked up in the
    prototype and called with the session as receiver. *)
Definition dispatch (proto : Prototype) (name : string) (session : nat)
    (request args : JsVal) : M unit :=
  call (proto !! name) (Session session) request args.

(** What a server learns after its [listen]: it holds the port from now on,
    or its ["error"] listener is called. *)
Definition deliver_listen_outcome (srv : Server) : M unit :=
  held <- gets listening ;;
  match listen_outcome env held (server_port srv) with
  | Bound => add_listening (server_port srv)
  | BindFails err => errorListener (server_this srv) err
  | BadPort => ret tt
  end.

(** A launch request from its dispatch to the end of the turn in which the
    servers it made learn how their [listen] went.  The result is how the
    handler itself completed. *)
Definition launch_turn (proto : Prototype) (session : nat) (request args : JsVal)
    : M (Result unit) :=
  before <- gets servers ;;
  r <- attempt (dispatch proto "launchRequest" session request args) ;;
  after <- gets servers ;;
  for_each deliver_listen_outcome (drop (length before) after) ;;
  ret r.

(** A disconnect request followed by some jobs of the event loop.  The
    result is how the handler itself completed. *)
Definition disconnect_then (schedule : list Job) (proto : Prototype)
    (session : nat) (response args : JsVal) : M (Result unit) :=
  r <- attempt (dispatch proto "disconnectRequest" session response args) ;;
  run_schedule schedule ;;
  ret r.

(** A disconnect request followed by the reactions of the promise it made,
    in the only order there is for the two: the promise settles, if it ever
    does, then the reaction of [done] runs. *)
Definition disconnect_turn (proto : Prototype) (session : nat)
    (response args : JsVal) : M (Result unit) :=
  stops <- gets pendingStops ;;
  dones <- gets pendingDones ;;
  disconnect_then [StopSettles (length stops); DoneReaction (length dones)]
    proto session response args.

(** The calls of node-debug's own methods among some effects. *)
Fixpoint native_calls (l : list Effect) : list (string * Receiver * JsVal * JsVal) :=
  match l with
  | [] => []
  | NativeCall name this request args :: rest =>
      (name, this, request, args) :: native_calls rest
  | _ :: rest => native_calls rest
  end.

(** The project roots at which the remote extension was asked for, among
    some effects. *)
Fixpoint remote_roots (l : list Effect) : list (option string) :=
  match l with
  | [] => []
  | AtProjectRootPath root :: rest => root :: remote_roots rest
  | _ :: rest => remote_roots rest
  end.

(** What was written to the error stream, among some effects. *)
Fixpoint stderr_writes (l : list Effect) : list string :=
  match l with
  | [] => []
  | StderrWrite text :: rest => text :: stderr_writes rest
  | _ :: rest => stderr_writes rest
  end.

(** What the rejection handler given to [done] leaves behind for a reason:
    the warning, or the TypeError of reading the message of nothing, which
    nobody catches. *)
Definition report (reason : Thrown) : list Effect :=
  match message_text reason with
  | Return text =>
      [StderrWrite ("WARNING: Couldn't stop monitoring logcat: " +:+ text +:+ LF)]
  | Throws e => [UncaughtException e]
  end.

(** *** The argument sanitizer as the specification words it *)

(** A launch argument by name; an absent one is undefined. *)
Definition field (o : gmap string JsVal) (key : string) : JsVal :=
  default JUndefined (o !! key).

(** The control port: the [internalDebuggerPort] argument when it parses as
    a non-zero integer, else 9090. *)
Definition resolved_port (o : gmap string JsVal) : Z :=
  parseInt10_or (field o "internalDebuggerPort") 9090.

(** The four fixed slots: platform, port as a string, relative project path
    or the default, target or ["simulator"]. *)
Definition sanitize_fixed (o : gmap string JsVal) : list JsVal :=
  [ field o "platform";
    JStr (Number_toString (safe (resolved_port o)));
    match field o "iosRelativeProjectPath" with
    | JUndefined | JNull => JStr DEFAULT_IOS_PROJECT_RELATIVE_PATH
    | provided => provided
    end;
    if truthy (field o "target") then field o "target" else JStr "simulator" ].

(** The optional trailing slot: nothing when the extra log arguments are
    absent, their elements joined by one space when a sequence, the value
    itself otherwise. *)
Definition sanitize_extra (o : gmap string JsVal) : list JsVal :=
  match field o "logCatArguments" with
  | JUndefined | JNull => []
  | JArr elements => [JStr (join elements " ")]
  | scalar => [scalar]
  end.

Definition sanitize (o : gmap string JsVal) : list JsVal :=
  sanitize_fixed o ++ sanitize_extra o.

(** The world once the wrapped launch has made its server, before [listen]. *)
Definition prepared (p : string) (w : World) : World :=
  let root := Path.resolve (cwd env) [p; "../.."] in
  mkWorld (Some root) (sourceMaps w) (servers w) (listening w)
    (pendingStops w) (pendingDones w)
    (effects w ++
       [ TelemetryReassign appName version APPINSIGHTS_INSTRUMENTATIONKEY root;
         HttpCreateServer ]).

(** The world once [listen] has accepted the port, before the wrapped launch
    delegates. *)
Definition launched (this : Receiver) (o : gmap string JsVal) (p : string)
    (w : World) : World :=
  let root := Path.resolve (cwd env) [p; "../.."] in
  mkWorld (Some root) (sourceMaps w)
    (servers w ++ [mkServer this (resolved_port o)])
    (listening w) (pendingStops w) (pendingDones w)
    (effects w ++
       [ TelemetryReassign appName version APPINSIGHTS_INSTRUMENTATIONKEY root;
         HttpCreateServer;
         HttpListen (resolved_port o) ]).




(** The five arguments the vector is made from. *)
Definition forwarded_keys : list string :=
  ["platform"; "internalDebuggerPort"; "iosRelativeProjectPath"; "target";
   "logCatArguments"].

(** *** Sample inputs *)

Definition initial_world : World := mkWorld None ∅ [] [] [] [] [].

(** One wording of the RangeError; Node versions differ in it. *)
Definition node_bad_port_message (port : Z) : string :=
  "port should be >= 0 and < 65536: " +:+ decimal port.

(** Collaborators that all succeed. *)
Definition quiet_env : Env :=
  mkEnv "/home/user" (fun _ => None) StopResolves (fun _ => None)
    node_bad_port_message.

(** The control port is taken and the remote extension drops the
    connection. *)
Definition hostile_env : Env :=
  mkEnv "/home/user" (fun _ => None)
    (StopRejects (ErrorObject "Error" "ECONNRESET"))
    (fun _ => Some (mkError "Error" "listen EADDRINUSE :::9090"))
    node_bad_port_message.

(** The prototype of node-debug's session before it is customized. *)
Definition node_debug_prototype : Prototype :=
  list_to_map
    [ ("launchRequest", Native "launchRequest");
      ("attachRequest", Native "attachRequest");
      ("disconnectRequest", Native "disconnectRequest") ].

(** The same prototype once customized. *)
Definition customized_prototype : Prototype :=
  <["disconnectRequest" := DisconnectWrapper (Some (Native "disconnectRequest"))]>
    (<["launchRequest" := LaunchWrapper (Some (Native "launchRequest"))]>
       node_debug_prototype).

(** The prototype after a second installation on top of the first. *)
Definition twice_customized_prototype : Prototype :=
  <["disconnectRequest" :=
      DisconnectWrapper
        (Some (DisconnectWrapper (Some (Native "disconnectRequest"))))]>
    (<["launchRequest" :=
         LaunchWrapper (Some (LaunchWrapper (Some (Native "launchRequest"))))]>
       customized_prototype).

(** node-debug's own handlers throw; the remote extension rejects. *)
Definition failing_adapter_env : Env :=
  mkEnv "/home/user" (fun _ => Some (ErrorObject "Error" "adapter is gone"))
    (StopRejects (ErrorObject "Error" "ECONNRESET"))
    (fun _ => None) node_bad_port_message.

(** The remote extension cannot be made: a string is thrown. *)
Definition no_remote_env : Env :=
  mkEnv "/home/user" (fun _ => None)
    (ConstructionThrows (ThrownValue (JStr "no extension server")))
    (fun _ => None) node_bad_port_message.

(** The remote extension cannot be made: undefined is thrown. *)
Definition throws_undefined_env : Env :=
  mkEnv "/home/user" (fun _ => None)
    (ConstructionThrows (ThrownValue JUndefined))
    (fun _ => None) node_bad_port_message.

(** The promise of [stopMonitoringLogcat] is rejected without a reason. *)
Definition rejects_undefined_env : Env :=
  mkEnv "/home/user" (fun _ => None)
    (StopRejects (ThrownValue JUndefined))
    (fun _ => None) node_bad_port_message.

(** The launch scenario of the specification. *)
Definition scenario_args : gmap string JsVal :=
  list_to_map
    [ ("program", JStr "/proj/ios/App.xcodeproj/..");
      ("platform", JStr "ios") ].

(** A launch configuration that sets every argument the wrapper reads, and
    some it does not. *)
Definition full_args : gmap string JsVal :=
  list_to_map
    [ ("name", JStr "Debug Android");
      ("type", JStr "reactnative");
      ("request", JStr "launch");
      ("program", JStr "/work/app/.vscode/launchReactNative.js");
      ("platform", JStr "android");
      ("internalDebuggerPort", JNum (safe 8081));
      ("iosRelativeProjectPath", JStr "");
      ("target", JStr "");
      ("logCatArguments", JArr [JStr "-b"; JStr "main"; JStr "-v"]);
      ("args", JArr [JStr "--inspect"; JStr "rm -rf /"]) ].

(** A port below zero. *)
Definition negative_port_args : gmap string JsVal :=
  list_to_map
    [ ("program", JStr "/work/app/.vscode/launchReactNative.js");
      ("platform", JStr "android");
      ("internalDebuggerPort", JNum (safe (-1))) ].


(** A program right under the root directory. *)
Definition shallow_args : gmap string JsVal :=
  list_to_map [ ("program", JStr "/app"); ("platform", JStr "ios") ].

(** A program given relative to the working directory. *)
Definition relative_args : gmap string JsVal :=
  list_to_map
    [ ("program", JStr "app/.vscode/launchReactNative.js");
      ("platform", JStr "ios") ].

(** The vector of [full_args], given as launch arguments again. *)
Definition resanitized_args : gmap string JsVal :=
  list_to_map
    [ ("program", JStr "/elsewhere/.vscode/launchReactNative.js");
      ("platform", JStr "android");
      ("internalDebuggerPort", JStr "8081");
      ("iosRelativeProjectPath", JStr "");
      ("target", JStr "simulator");
      ("logCatArguments", JStr "-b main -v") ].

(** ** Properties *)

(** *** Numbers *)

Lemma safe_or_zero_value (n : Z) (b : bool) (H : is_safe n = b) :
  b = true -> safe_value (safe_or_zero n b H) = n.
Proof. destruct b; [reflexivity|discriminate]. Qed.

(** On an integer that a Number holds exactly, [safe] is the identity. *)
Lemma safe_value_safe (n : Z) : is_safe n = true -> safe_value (safe n) = n.
Proof. intros H. unfold safe. apply safe_or_zero_value. exact H. Qed.

Lemma legal_port_spec (port : Z) :
  legal_port port = true <-> 0 <= port <= 65535.
Proof. unfold legal_port. rewrite andb_true_iff, !Z.leb_le. tauto. Qed.

Lemma legal_port_is_safe (port : Z) : legal_port port = true -> is_safe port = true.
Proof.
  rewrite legal_port_spec. unfold is_safe, MAX_SAFE_INTEGER. intros H.
  apply Z.leb_le. change (2 ^ 53 - 1) with 9007199254740991. lia.
Qed.

(** The string of a port that [listen] accepted is its decimal digits. *)
Lemma Number_toString_legal (port : Z) :
  legal_port port = true -> Number_toString (safe port) = decimal port.
Proof.
  intros H. unfold Number_toString.
  rewrite safe_value_safe by (apply legal_port_is_safe; exact H). reflexivity.
Qed.

(** *** Parsing and printing integers *)

Lemma digit_prefix_string_of_uint (d : Decimal.uint) :
  digit_prefix (NilEmpty.string_of_uint d) = d.
Proof. induction d; cbn; congruence. Qed.

(** A non-empty run of decimal digits parses to the integer it denotes. *)
Lemma parseInt10_digits (d : Decimal.uint) :
  d <> Decimal.Nil ->
  parseInt10 (JStr (NilEmpty.string_of_uint d)) = Some (Z.of_uint d).
Proof.
  intros Hd. unfold parseInt10.
  destruct d; [congruence| ..];
    cbn [ToString NilEmpty.string_of_uint trimStart];
    (replace (isWhiteSpace _) with false by reflexivity);
    cbv beta iota; cbn [digit_prefix digit_of_ascii];
    rewrite digit_prefix_string_of_uint, Z.mul_1_l; reflexivity.
Qed.

Lemma decimal_pos (p : positive) :
  decimal (Z.pos p) = NilEmpty.string_of_uint (Pos.to_uint p).
Proof.
  unfold decimal. cbn.
  pose proof (DecimalPos.Unsigned.to_uint_nonnil p) as Hnil.
  unfold NilZero.string_of_uint. destruct (Pos.to_uint p); congruence.
Qed.

(** A positive integer, printed, parses to itself. *)
Lemma parseInt10_decimal_pos (n : Z) :
  0 < n -> parseInt10 (JStr (decimal n)) = Some n.
Proof.
  intros Hn. destruct n as [|p|p]; try lia.
  rewrite decimal_pos, parseInt10_digits
    by apply DecimalPos.Unsigned.to_uint_nonnil.
  f_equal. exact (DecimalZ.of_to (Z.pos p)).
Qed.


Lemma decimal_neg (q : positive) :
  decimal (Z.neg q) = String "-" (NilEmpty.string_of_uint (Pos.to_uint q)).
Proof.
  unfold decimal. cbn.
  pose proof (DecimalPos.Unsigned.to_uint_nonnil q) as Hnil.
  unfold NilZero.string_of_uint. destruct (Pos.to_uint q); congruence.
Qed.

(** A minus sign in front of digits negates what they denote. *)
Lemma parseInt10_minus_digits (d : Decimal.uint) :
  d <> Decimal.Nil ->
  parseInt10 (JStr (String "-" (NilEmpty.string_of_uint d)))
  = Some (- Z.of_uint d).
Proof.
  intros Hd. unfold parseInt10. cbn [ToString trimStart].
  replace (isWhiteSpace "-") with false by reflexivity. cbv beta iota.
  rewrite digit_prefix_string_of_uint.
  destruct d; [congruence| ..]; f_equal; lia.
Qed.

(** Every integer, printed, parses to itself. *)
Lemma parseInt10_decimal (n : Z) : parseInt10 (JStr (decimal n)) = Some n.
Proof.
  destruct n as [|q|q].
  - reflexivity.
  - apply parseInt10_decimal_pos. lia.
  - rewrite decimal_neg, parseInt10_minus_digits
      by apply DecimalPos.Unsigned.to_uint_nonnil.
    f_equal. pose proof (DecimalZ.of_to (Z.pos q)) as Hq. cbn in Hq.
    rewrite Hq. reflexivity.
Qed.

(** A Number parses to the integer it holds. *)
Lemma parseInt10_JNum (n : SafeInteger) : parseInt10 (JNum n) = Some (safe_value n).
Proof. exact (parseInt10_decimal (safe_value n)). Qed.

Lemma append_cons (c : ascii) (s t : string) :
  String c s +:+ t = String c (s +:+ t).
Proof. reflexivity. Qed.

(** Digits followed by something that does not start with a digit. *)
Lemma digit_prefix_append (d : Decimal.uint) (rest : string) :
  digit_prefix rest = Decimal.Nil ->
  digit_prefix (NilEmpty.string_of_uint d +:+ rest) = d.
Proof.
  intros Hrest.
  induction d; cbn [NilEmpty.string_of_uint]; [exact Hrest| ..];
    rewrite append_cons; cbn [digit_prefix digit_of_ascii]; congruence.
Qed.

Lemma parseInt10_digits_then (d : Decimal.uint) (rest : string) :
  d <> Decimal.Nil ->
  digit_prefix rest = Decimal.Nil ->
  parseInt10 (JStr (NilEmpty.string_of_uint d +:+ rest)) = Some (Z.of_uint d).
Proof.
  intros Hd Hrest. unfold parseInt10. cbn [ToString].
  pose proof (digit_prefix_append d rest Hrest) as Hprefix.
  destruct d; [congruence| ..];
    cbn [NilEmpty.string_of_uint] in *; rewrite append_cons in *;
    cbn [trimStart];
    (replace (isWhiteSpace _) with false by reflexivity);
    cbv beta iota; rewrite Hprefix, Z.mul_1_l; reflexivity.
Qed.

Lemma resolved_port_nonzero (o : gmap string JsVal) : resolved_port o <> 0.
Proof.
  unfold resolved_port, parseInt10_or.
  destruct (parseInt10 (field o "internalDebuggerPort")) as [n|]; [|lia].
  destruct (Z.eqb_spec n 0); lia.
Qed.

(** The port of a Number: itself, or 9090 for zero. *)
Lemma resolved_port_JNum (o : gmap string JsVal) (n : SafeInteger) :
  field o "internalDebuggerPort" = JNum n ->
  resolved_port o = if safe_value n =? 0 then 9090 else safe_value n.
Proof.
  intros H. unfold resolved_port, parseInt10_or. rewrite H, parseInt10_JNum.
  reflexivity.
Qed.


(** *** Resolving paths *)

Lemma append_assoc (a b c : string) : (a +:+ b) +:+ c = a +:+ b +:+ c.
Proof.
  induction a as [|x a IH]; [reflexivity|].
  change (String x ((a +:+ b) +:+ c) = String x (a +:+ b +:+ c)).
  f_equal. exact IH.
Qed.

Lemma split_cons (c : ascii) (r : string) :
  c <> "/"%char ->
  Path.split (String c r)
  = match Path.split r with
    | seg :: segs => String c seg :: segs
    | [] => [String c ""]
    end.
Proof.
  intros Hc. destruct c as [[] [] [] [] [] [] [] []]; try reflexivity; congruence.
Qed.

Lemma split_append_slash (s t : string) :
  Path.no_slash s = true ->
  Path.split (s +:+ String "/" t) = s :: Path.split t.
Proof.
  induction s as [|c s IH]; cbn [Path.no_slash]; [reflexivity|].
  rewrite andb_true_iff, negb_true_iff. intros [Hc Hs].
  apply Ascii.eqb_neq in Hc.
  change (String c s +:+ String "/" t) with (String c (s +:+ String "/" t)).
  rewrite split_cons, IH by assumption. reflexivity.
Qed.

(** Splitting what [join] made of segments without separator gives the
    segments back, also in front of a further separator. *)
Lemma split_join_append (names : list string) (t : string) :
  names <> [] ->
  Forall (fun s => Path.no_slash s = true) names ->
  Path.split (Path.join names +:+ String "/" t) = names ++ Path.split t.
Proof.
  intros Hne Hnames. induction Hnames as [|s rest Hs Hrest IH]; [congruence|].
  destruct rest as [|s' rest].
  - cbn [Path.join app]. apply split_append_slash, Hs.
  - change (Path.join (s :: s' :: rest))
      with (s +:+ "/" +:+ Path.join (s' :: rest)).
    rewrite append_assoc.
    change (("/" +:+ Path.join (s' :: rest)) +:+ String "/" t)
      with (String "/" (Path.join (s' :: rest) +:+ String "/" t)).
    rewrite split_append_slash, IH by (assumption || congruence). reflexivity.
Qed.

Lemma is_name_no_slash (s : string) :
  Path.is_name s = true -> Path.no_slash s = true.
Proof. unfold Path.is_name. rewrite !andb_true_iff. tauto. Qed.

(** The normalisation loop keeps names. *)
Lemma normalizeArray_names (names rest : list string) allowAboveRoot res :
  Forall (fun s => Path.is_name s = true) names ->
  Path.normalizeArray (names ++ rest) allowAboveRoot res
  = Path.normalizeArray rest allowAboveRoot (rev names ++ res).
Proof.
  intros Hnames. revert res.
  induction Hnames as [|s names Hs Hnames IH]; intros res; [reflexivity|].
  cbn [app Path.normalizeArray rev]. unfold Path.is_name in Hs.
  rewrite !andb_true_iff, !negb_true_iff in Hs.
  destruct Hs as [[[_ Hempty] Hdot] Hdotdot].
  rewrite Hempty, Hdot, Hdotdot. cbn [orb]. rewrite IH, <- app_assoc.
  reflexivity.
Qed.

(** The grandparent: resolving ["../.."] against an absolute path of names
    drops its last two names, whatever the working directory. *)
Lemma resolve_grandparent (cwd : string) (segs : list string) (a b : string) :
  Forall (fun s => Path.is_name s = true) (segs ++ [a; b]) ->
  Path.resolve cwd ["/" +:+ Path.join (segs ++ [a; b]); "../.."]
  = "/" +:+ Path.join segs.
Proof.
  intros Hnames. unfold Path.resolve.
  change (Path.prepend_until_absolute
            (rev ["/" +:+ Path.join (segs ++ [a; b]); "../.."] ++ [cwd]) "")
    with (String "/" (Path.join (segs ++ [a; b]) +:+ String "/" "../../"), true).
  cbv beta iota. cbn [Path.split negb].
  rewrite split_join_append.
  2: { destruct segs; discriminate. }
  2: { eapply Forall_impl; [exact Hnames|]. exact is_name_no_slash. }
  cbn [Path.normalizeArray String.eqb Ascii.eqb Bool.eqb orb].
  rewrite normalizeArray_names by exact Hnames.
  rewrite rev_app_distr, app_nil_r. cbn [rev app].
  apply Forall_app in Hnames as [_ Hab].
  apply Forall_cons_1 in Hab as [Ha Hb'].
  apply Forall_cons_1 in Hb' as [Hb _].
  unfold Path.is_name in Ha, Hb.
  rewrite !andb_true_iff, !negb_true_iff in Ha, Hb.
  destruct Ha as [_ Ha], Hb as [_ Hb].
  change (Path.split "../../") with [".."; ".."; ""].
  cbn [Path.normalizeArray String.eqb Ascii.eqb Bool.eqb orb].
  rewrite Hb. cbn [Path.normalizeArray String.eqb Ascii.eqb Bool.eqb orb].
  rewrite Ha. cbn [Path.normalizeArray String.eqb Ascii.eqb Bool.eqb orb].
  rewrite rev_involutive. reflexivity.
Qed.

(** *** Running the wrapped launch *)

(** With a string [program], the wrapped launch sets the project root,
    reassigns the telemetry reporter and makes its server.  When [listen]
    accepts the port, the wrapped launch then is the original launch, called
    with the same receiver and request and with [args.args] overwritten by
    the sanitized vector; when it does not, the RangeError of [listen]
    leaves the wrapped launch at once. *)
Lemma wrapped_launchRequest_run k this request o p w :
  o !! "program" = Some (JStr p) ->
  wrapped_launchRequest k this request (JObj o) w
  = if legal_port (resolved_port o)
    then k this request (JObj (<["args" := JArr (sanitize o)]> o))
           (launched this o p w)
    else (Throws (RangeError (bad_port_message env (resolved_port o))),
          prepared p w).
Proof.
  intros Hp.
  unfold wrapped_launchRequest, attachRequest, read, bind, get.
  rewrite Hp. cbn [default path_resolve ret].
  unfold sanitize, sanitize_extra, sanitize_fixed, launched, prepared, listen,
    resolved_port, field.
  cbn [write get].
  rewrite lookup_insert_ne by done.
  destruct (legal_port _); [|cbn; rewrite <- ?app_assoc; reflexivity].
  destruct (o !! "logCatArguments") as [[]|];
    destruct (o !! "iosRelativeProjectPath") as [[]|];
    cbn; rewrite ?lookup_insert_eq; cbn;
    rewrite ?insert_insert_eq, <- ?app_assoc; reflexivity.
Qed.

(** The same when [listen] accepts the port. *)
Lemma wrapped_launchRequest_legal k this request o p w :
  o !! "program" = Some (JStr p) ->
  legal_port (resolved_port o) = true ->
  wrapped_launchRequest k this request (JObj o) w
  = k this request (JObj (<["args" := JArr (sanitize o)]> o))
      (launched this o p w).
Proof. intros Hp Hlegal. rewrite (wrapped_launchRequest_run _ _ _ _ _ _ Hp), Hlegal. reflexivity. Qed.

(** The vector depends on the forwarded arguments only. *)
Lemma sanitize_forwarded_keys (o o' : gmap string JsVal) :
  (forall key, In key forwarded_keys -> o' !! key = o !! key) ->
  sanitize o' = sanitize o.
Proof.
  intros Hagree.
  unfold sanitize, sanitize_fixed, sanitize_extra, resolved_port, field.
  rewrite !Hagree by (cbn; tauto). reflexivity.
Qed.



(** *** The vector *)


Lemma parseLogCatArguments_array (l : list JsVal) :
  parseLogCatArguments (JArr l) = JStr (join l " ").
Proof. reflexivity. Qed.


(** What the second slot holds, by what the port argument is. *)
Lemma sanitize_port_slot (o : gmap string JsVal) :
  legal_port (resolved_port o) = true ->
  sanitize o !! 1%nat = Some (JStr (decimal (resolved_port o))).
Proof.
  intros Hlegal. unfold sanitize, sanitize_fixed. cbn [app lookup list_lookup].
  rewrite Number_toString_legal by exact Hlegal. reflexivity.
Qed.

Ltac slots :=
  unfold sanitize, sanitize_fixed, sanitize_extra;
  cbn [app lookup list_lookup].


(** *** The control port *)


(** *** Extra log arguments *)


(** *** Defaults of the third and fourth slots *)

(** C10. When [listen] accepts the port: a target that is falsy, that is
    undefined, null, false, zero or the empty string, is replaced by
    ["simulator"] in the fourth slot, and any other target is forwarded;
    while an [iosRelativeProjectPath] is replaced by the default in the
    third slot only when it is null or undefined: the empty string, like
    false and zero, is forwarded as it is. *)
Theorem launch_defaulting_asymmetry k this request (o : gmap string JsVal) p w :
  o !! "program" = Some (JStr p) ->
  legal_port (resolved_port o) = true ->
  exists vec,
    wrapped_launchRequest k this request (JObj o) w
    = k this request (JObj (<["args" := JArr vec]> o)) (launched this o p w)
    /\ (field o "target" = JStr "" -> vec !! 3%nat = Some (JStr "simulator"))
    /\ (field o "target" = JUndefined \/ field o "target" = JNull
        \/ field o "target" = JBool false \/ field o "target" = JNum (safe 0) ->
        vec !! 3%nat = Some (JStr "simulator"))
    /\ (forall s, field o "target" = JStr s -> s <> "" ->
         vec !! 3%nat = Some (JStr s))
    /\ (field o "target" <> JUndefined -> field o "target" <> JNull ->
        field o "target" <> JBool false -> field o "target" <> JStr "" ->
        (forall n, field o "target" = JNum n -> safe_value n <> 0) ->
        vec !! 3%nat = Some (field o "target"))
    /\ (field o "iosRelativeProjectPath" = JStr "" ->
        vec !! 2%nat = Some (JStr ""))
    /\ (field o "iosRelativeProjectPath" = JBool false ->
        vec !! 2%nat = Some (JBool false))
    /\ (field o "iosRelativeProjectPath" = JNum (safe 0) ->
        vec !! 2%nat = Some (JNum (safe 0)))
    /\ (field o "iosRelativeProjectPath" <> JUndefined ->
        field o "iosRelativeProjectPath" <> JNull ->
        vec !! 2%nat = Some (field o "iosRelativeProjectPath"))
    /\ (field o "iosRelativeProjectPath" = JUndefined
        \/ field o "iosRelativeProjectPath" = JNull ->
        vec !! 2%nat = Some (JStr DEFAULT_IOS_PROJECT_RELATIVE_PATH)).
Proof.
  intros Hp Hlegal. exists (sanitize o).
  split; [apply wrapped_launchRequest_legal; assumption|].
  slots.
  split; [intros ->; reflexivity|].
  split; [intros [-> | [-> | [-> | ->]]]; reflexivity|].
  split.
  { intros s -> Hs. cbn [truthy]. apply String.eqb_neq in Hs. rewrite Hs.
    reflexivity. }
  split.
  { intros Hu Hn Hb Hs Hz.
    destruct (field o "target") as [| |[]|n|s| |]; try congruence; try reflexivity.
    - cbn [truthy]. specialize (Hz n eq_refl).
      apply Z.eqb_neq in Hz. rewrite Hz. reflexivity.
    - cbn [truthy]. destruct (String.eqb_spec s ""); [congruence|reflexivity]. }
  split; [intros ->; reflexivity|].
  split; [intros ->; reflexivity|].
  split; [intros ->; reflexivity|].
  split.
  { intros Hu Hn.
    destruct (field o "iosRelativeProjectPath"); congruence || reflexivity. }
  intros [-> | ->]; reflexivity.
Qed.

(** *** The control server *)

Lemma requestListener_refresh id (w : World) :
  requestListener (Session id) "/refreshBreakpoints" w
  = (Return tt,
     mkWorld (projectRootPath w)
       (match sourceMaps w !! id with
        | Some _ => <[id := mkSourceMaps ∅ ∅ ∅]> (sourceMaps w)
        | None => sourceMaps w
        end)
       (servers w) (listening w) (pendingStops w) (pendingDones w)
       (effects w ++ [SendEvent id InitializedEvent; HttpEnd 200])).
Proof.
  unfold requestListener, bind, gets. cbn.
  destruct (sourceMaps w !! id); unfold emit; cbn; rewrite <- ?app_assoc;
    reflexivity.
Qed.

Lemma requestListener_other this url (w : World) :
  url <> "/refreshBreakpoints" ->
  requestListener this url w
  = (Return tt,
     mkWorld (projectRootPath w) (sourceMaps w) (servers w) (listening w)
       (pendingStops w) (pendingDones w) (effects w ++ [HttpEnd 404])).
Proof.
  intros Hurl. unfold requestListener.
  apply String.eqb_neq in Hurl. rewrite Hurl. reflexivity.
Qed.

(** C4. A request to the server of a launch whose receiver is a live session
    is answered 200 when its path is exactly [/refreshBreakpoints], after
    the session's source-map caches, if it has any, were emptied and an
    Initialized event was sent on that session; any other path is answered
    404 and nothing else happens. *)
Theorem reinitializeServer_routing (srv : Server) id url (w : World) :
  server_this srv = Session id ->
  exists w',
    requestListener (server_this srv) url w = (Return tt, w')
    /\ projectRootPath w' = projectRootPath w
    /\ servers w' = servers w
    /\ pendingStops w' = pendingStops w
    /\ listening w' = listening w
    /\ pendingDones w' = pendingDones w
    /\ (url = "/refreshBreakpoints" ->
        effects w' = effects w ++ [SendEvent id InitializedEvent; HttpEnd 200]
        /\ sourceMaps w' !! id
           = (fun _ => mkSourceMaps ∅ ∅ ∅) <$> (sourceMaps w !! id)
        /\ forall other, other <> id ->
             sourceMaps w' !! other = sourceMaps w !! other)
    /\ (url <> "/refreshBreakpoints" ->
        effects w' = effects w ++ [HttpEnd 404]
        /\ sourceMaps w' = sourceMaps w).
Proof.
  intros ->. destruct (decide (url = "/refreshBreakpoints")) as [->|Hurl].
  - eexists. split; [apply requestListener_refresh|]. cbn.
    do 5 (split; [reflexivity|]). split; [|congruence].
    intros _. split; [reflexivity|].
    destruct (sourceMaps w !! id) eqn:Hsm.
    + split; [apply lookup_insert_eq|].
      intros other Hother. apply lookup_insert_ne. congruence.
    + split; [rewrite Hsm; reflexivity|reflexivity].
  - eexists. split; [apply requestListener_other; exact Hurl|]. cbn.
    do 5 (split; [reflexivity|]). split; [congruence|].
    intros _. split; reflexivity.
Qed.

(** *** Installation *)

(** Installation always succeeds: the launch and disconnect slots get
    closures that captured what the slots held, every other slot is kept. *)
Lemma customizeNodeAdapterRequests_run (proto : Prototype) :
  exists proto',
    customizeNodeAdapterRequests proto = Return proto'
    /\ proto' !! "launchRequest" = Some (LaunchWrapper (proto !! "launchRequest"))
    /\ proto' !! "disconnectRequest"
       = Some (DisconnectWrapper (proto !! "disconnectRequest"))
    /\ forall name, name <> "launchRequest" -> name <> "disconnectRequest" ->
         proto' !! name = proto !! name.
Proof.
  eexists. split; [reflexivity|].
  split; [rewrite lookup_insert_ne by done; apply lookup_insert_eq|].
  split.
  - rewrite lookup_insert_eq, lookup_insert_ne by done. reflexivity.
  - intros name Hl Hd. rewrite !lookup_insert_ne by congruence. reflexivity.
Qed.

(** *** Disconnect *)

Lemma native_calls_app (l l' : list Effect) :
  native_calls (l ++ l') = native_calls l ++ native_calls l'.
Proof.
  induction l as [|e l IH]; [reflexivity|].
  destruct e; cbn; rewrite IH; reflexivity.
Qed.

Lemma remote_roots_app (l l' : list Effect) :
  remote_roots (l ++ l') = remote_roots l ++ remote_roots l'.
Proof.
  induction l as [|e l IH]; [reflexivity|].
  destruct e; cbn; rewrite IH; reflexivity.
Qed.

Lemma stderr_writes_app (l l' : list Effect) :
  stderr_writes (l ++ l') = stderr_writes l ++ stderr_writes l'.
Proof.
  induction l as [|e l IH]; [reflexivity|].
  destruct e; cbn; rewrite IH; reflexivity.
Qed.

(** The reaction registered last is found at the length of what waited. *)
Lemma lookup_registered {A} (l : list A) (x : A) :
  (l ++ [x]) !! length l = Some x.
Proof. apply list_lookup_middle. reflexivity. Qed.

Lemma lookup_none_registered {A} (l : list A) : l !! length l = None.
Proof. apply lookup_ge_None_2. reflexivity. Qed.

Lemma delete_registered {A} (l : list A) (x : A) :
  delete (length l) (l ++ [x]) = l.
Proof.
  induction l as [|y l IH]; [reflexivity|]. cbn. f_equal. exact IH.
Qed.

Lemma message_or_reason_run (t : Thrown) (w : World) :
  message_or_reason t w = (message_text t, w).
Proof.
  unfold message_or_reason, read_message, read, bind, ret, throw.
  destruct t as [name message|v]; [reflexivity|].
  cbn [message_text]. destruct (get v "message"); reflexivity.
Qed.

(** Only null and undefined have no message to read. *)
Lemma message_text_nullish (v : JsVal) :
  v = JUndefined \/ v = JNull ->
  message_text (ThrownValue v)
  = Throws (TypeError ("Cannot read property 'message' of " +:+ ToString v)).
Proof. intros [-> | ->]; reflexivity. Qed.

Lemma message_text_defined (t : Thrown) :
  t <> ThrownValue JUndefined -> t <> ThrownValue JNull ->
  exists text, message_text t = Return text.
Proof.
  intros Hu Hn. destruct t as [name message|[]]; try congruence;
    eexists; reflexivity.
Qed.

Lemma message_text_Error (name message : string) :
  message <> "" -> message_text (ErrorObject name message) = Return message.
Proof.
  intros H. cbn. apply String.eqb_neq in H. rewrite H. reflexivity.
Qed.

Lemma message_text_string (s : string) :
  message_text (ThrownValue (JStr s)) = Return s.
Proof. reflexivity. Qed.

Ltac run :=
  unfold disconnect_turn, disconnect_then, run_schedule, run_job, run_finally,
    run_done, launch_turn, dispatch, call, wrapped_disconnectRequest,
    Q_finally, Q_done, attempt, try_catch, atProjectRootPath,
    stopMonitoringLogcat, stop_settlement, call_native, errorListener,
    sendEvent, deliver_listen_outcome,
    bind, ret, gets, emit, throw, set_pendingStops, set_pendingDones,
    add_listening;
  cbn.

Ltac run_with rewriting :=
  repeat (progress (run; rewriting;
                    rewrite ?message_or_reason_run, ?lookup_registered,
                      ?delete_registered, ?lookup_none_registered)).

(** A disconnect request to a customized session, whatever the remote
    extension and the original disconnect do. *)
Lemma disconnect_turn_run (proto : Prototype) n id response args (w : World) :
  proto !! "disconnectRequest" = Some (DisconnectWrapper (Some (Native n))) ->
  pendingStops w = [] ->
  let original := NativeCall n (Session id) response args in
  let returned :=
    match native_outcome env n with
    | None => Return tt
    | Some e => Throws e
    end in
  let sync exception (before : list Effect) :=
    match message_text exception with
    | Return text =>
        (returned,
         before ++
         [ StderrWrite
             ("WARNING: Couldn't stop monitoring logcat. Sync exception: "
              +:+ text +:+ LF);
           original ])
    | Throws e => (Throws e, before)
    end in
  let '(r, stops, new) :=
    match remote env with
    | ConstructionThrows exception =>
        let '(r, new) :=
          sync exception [AtProjectRootPath (projectRootPath w)] in
        (r, [], new)
    | StopThrows exception =>
        let '(r, new) :=
          sync exception
            [AtProjectRootPath (projectRootPath w); StopMonitoringLogcat] in
        (r, [], new)
    | StopResolves =>
        (Return tt, [],
         [AtProjectRootPath (projectRootPath w); StopMonitoringLogcat; original]
         ++ match native_outcome env n with
            | None => []
            | Some e => report e
            end)
    | StopRejects reason =>
        (Return tt, [],
         [AtProjectRootPath (projectRootPath w); StopMonitoringLogcat; original]
         ++ report (default reason (native_outcome env n)))
    | StopPending =>
        (Return tt,
         [mkPendingStop (Some (Native n)) (Session id) response args],
         [AtProjectRootPath (projectRootPath w); StopMonitoringLogcat])
    end in
  disconnect_turn proto id response args w
  = (Return r,
     mkWorld (projectRootPath w) (sourceMaps w) (servers w) (listening w)
       stops (pendingDones w) (effects w ++ new)).
Proof.
  intros Hd Hpending. cbv zeta.
  unfold disconnect_turn, disconnect_then, dispatch, gets, bind.
  rewrite Hd, Hpending. unfold report.
  destruct (remote env) as [e|e| |e|] eqn:Hr;
    try destruct (message_text e) eqn:He;
    destruct (native_outcome env n) as [t|] eqn:Hn;
    try destruct (message_text t) eqn:Ht.
  all: run_with ltac:(rewrite ?Hpending, ?Hr, ?Hn, ?He, ?Ht).
  all: rewrite <- ?app_assoc; reflexivity.
Qed.

(** C2. A disconnect request to a session whose prototype was customized
    calls the original disconnect exactly once, with that session as
    receiver and the response and arguments of the request, when
    [stopMonitoringLogcat] resolves or rejects, and when it or the making
    of the remote extension throws anything but null or undefined.  When
    what is thrown is null or undefined, reading its [message] in the catch
    block throws a TypeError before the original disconnect is called:
    the request fails with that error, nothing is written, and the original
    disconnect is not called at all. *)
Theorem disconnect_calls_original_once (proto proto' : Prototype) n id
    response args (w : World) :
  proto !! "disconnectRequest" = Some (Native n) ->
  customizeNodeAdapterRequests proto = Return proto' ->
  pendingStops w = [] ->
  remote env <> StopPending ->
  exists r w' new,
    disconnect_turn proto' id response args w = (Return r, w')
    /\ effects w' = effects w ++ new
    /\ pendingStops w' = []
    /\ pendingDones w' = pendingDones w
    /\ ((forall exception,
           remote env = ConstructionThrows exception
           \/ remote env = StopThrows exception ->
           exception <> ThrownValue JUndefined
           /\ exception <> ThrownValue JNull) ->
        native_calls new = [(n, Session id, response, args)])
    /\ (forall v,
          remote env = ConstructionThrows (ThrownValue v)
          \/ remote env = StopThrows (ThrownValue v) ->
          v = JUndefined \/ v = JNull ->
          native_calls new = []
          /\ stderr_writes new = []
          /\ r = Throws (TypeError ("Cannot read property 'message' of "
                                    +:+ ToString v))).
Proof.
  intros Horig Hinst Hpending Hremote.
  destruct (customizeNodeAdapterRequests_run proto) as (p & Hp & _ & Hd & _).
  rewrite Hinst in Hp. injection Hp as <-. rewrite Horig in Hd.
  pose proof (disconnect_turn_run proto' n id response args w Hd Hpending)
    as Hrun.
  cbv zeta in Hrun. unfold report in Hrun.
  destruct (remote env) as [e|e| |e|] eqn:Hr; [| | | |congruence].
  1, 2: destruct (message_text e) as [text|x] eqn:He.
  all: do 3 eexists; split; [exact Hrun|]; cbn [effects pendingStops pendingDones].
  all: do 3 (split; [reflexivity|]).
  all: split;
    [ intros Hsync
    | intros v [Hv | Hv] Hnullish; try discriminate; injection Hv as -> ].
  all: try (rewrite (message_text_nullish v Hnullish) in He).
  all: try discriminate.
  all: try (injection He as <-; repeat split; reflexivity).
  all: try (destruct (Hsync e (or_introl eq_refl)) as [Hu Hn];
            destruct (message_text_defined e Hu Hn); congruence).
  all: try (destruct (Hsync e (or_intror eq_refl)) as [Hu Hn];
            destruct (message_text_defined e Hu Hn); congruence).
  all: rewrite ?native_calls_app; cbn [native_calls app]; try reflexivity.
  all: destruct (native_outcome env n) as [t|]; try reflexivity.
  all: destruct (message_text _); reflexivity.
Qed.

(** A promise that never settles leaves the original disconnect uncalled. *)
Remark disconnect_pending_waits (proto : Prototype) n id response args (w : World) :
  proto !! "disconnectRequest" = Some (DisconnectWrapper (Some (Native n))) ->
  pendingStops w = [] ->
  remote env = StopPending ->
  exists w',
    disconnect_turn proto id response args w = (Return (Return tt), w')
    /\ effects w' = effects w ++ [AtProjectRootPath (projectRootPath w); StopMonitoringLogcat]
    /\ length (pendingStops w') = 1%nat.
Proof.
  intros Hd Hpending Hr.
  pose proof (disconnect_turn_run proto n id response args w Hd Hpending)
    as Hrun.
  cbv zeta in Hrun. rewrite Hr in Hrun.
  eexists. split; [exact Hrun|]. split; reflexivity.
Qed.

(** *** Whole launches *)

Lemma bind_Return {A B} (m : M A) (k : A -> M B) a (w w' : World) :
  m w = (Return a, w') -> bind m k w = k a w'.
Proof. intros H. unfold bind. rewrite H. reflexivity. Qed.

(** A launch request to a customized session, whatever the network and the
    original launch do. *)
Lemma launch_turn_run (proto : Prototype) n id request (o : gmap string JsVal)
    p (w : World) :
  proto !! "launchRequest" = Some (LaunchWrapper (Some (Native n))) ->
  o !! "program" = Some (JStr p) ->
  let root := Path.resolve (cwd env) [p; "../.."] in
  let port := resolved_port o in
  let returned :=
    match native_outcome env n with
    | None => Return tt
    | Some e => Throws e
    end in
  let delegated :=
    [ TelemetryReassign appName version APPINSIGHTS_INSTRUMENTATIONKEY root;
      HttpCreateServer;
      HttpListen port;
      NativeCall n (Session id) request
        (JObj (<["args" := JArr (sanitize o)]> o)) ] in
  launch_turn proto id request (JObj o) w
  = match listen_outcome env (listening w) port with
    | BadPort =>
        (Return (Throws (RangeError (bad_port_message env port))),
         prepared p w)
    | Bound =>
        (Return returned,
         mkWorld (Some root) (sourceMaps w)
           (servers w ++ [mkServer (Session id) port])
           (listening w ++ [port]) (pendingStops w) (pendingDones w)
           (effects w ++ delegated))
    | BindFails err =>
        (Return returned,
         mkWorld (Some root) (sourceMaps w)
           (servers w ++ [mkServer (Session id) port])
           (listening w) (pendingStops w) (pendingDones w)
           (effects w ++ delegated ++
            [ TelemetrySimpleEvent "reinitializeServerError";
              SendEvent id
                (OutputEvent
                   ("Error in debug adapter server: " +:+ Error_toString err)
                   (Some "stderr"));
              SendEvent id
                (OutputEvent
                   "Breakpoints may not update. Consider restarting and specifying a different 'internalDebuggerPort' in launch.json"
                   None) ]))
    end.
Proof.
  intros Hl Hp. cbv zeta. unfold launch_turn, dispatch. rewrite Hl.
  unfold call, attempt, bind, gets. cbn [invoke].
  rewrite (wrapped_launchRequest_run _ _ _ _ _ _ Hp).
  unfold listen_outcome.
  destruct (legal_port (resolved_port o)) eqn:Hlegal; cbn [negb].
  2: { cbn. rewrite drop_all. reflexivity. }
  destruct (native_outcome env n) eqn:Hn;
    destruct (port_in_use env (resolved_port o)) eqn:Hused;
    try destruct (bool_decide (resolved_port o ∈ listening w)) eqn:Hheld.
  all: repeat (progress (run; unfold listen_outcome;
                         rewrite ?Hn, ?drop_app_length, ?Hlegal, ?Hused, ?Hheld)).
  all: rewrite <- ?app_assoc; reflexivity.
Qed.

(** *** A control server that cannot bind *)

(** C8. When the port of the control server cannot be bound, a launch
    request to a session whose prototype was customized completes as the
    original launch does, to which it delegates with the sanitized vector
    in [args.args]; the failure shows as the telemetry event
    ["reinitializeServerError"] and two Output events on the session, and as
    nothing else. *)
Theorem launch_survives_bind_failure (proto proto' : Prototype) n id request
    (o : gmap string JsVal) p err (w : World) :
  proto !! "launchRequest" = Some (Native n) ->
  customizeNodeAdapterRequests proto = Return proto' ->
  o !! "program" = Some (JStr p) ->
  listen_outcome env (listening w) (resolved_port o) = BindFails err ->
  exists r w',
    launch_turn proto' id request (JObj o) w = (Return r, w')
    /\ r = match native_outcome env n with
           | None => Return tt
           | Some e => Throws e
           end
    /\ effects w'
       = effects w ++
         [ TelemetryReassign appName version APPINSIGHTS_INSTRUMENTATIONKEY
             (Path.resolve (cwd env) [p; "../.."]);
           HttpCreateServer;
           HttpListen (resolved_port o);
           NativeCall n (Session id) request
             (JObj (<["args" := JArr (sanitize o)]> o));
           TelemetrySimpleEvent "reinitializeServerError";
           SendEvent id
             (OutputEvent
                ("Error in debug adapter server: " +:+ Error_toString err)
                (Some "stderr"));
           SendEvent id
             (OutputEvent
                "Breakpoints may not update. Consider restarting and specifying a different 'internalDebuggerPort' in launch.json"
                None) ]
    /\ servers w' = servers w ++ [mkServer (Session id) (resolved_port o)]
    /\ projectRootPath w' = Some (Path.resolve (cwd env) [p; "../.."]).
Proof.
  intros Horig Hinst Hp Hbind.
  destruct (customizeNodeAdapterRequests_run proto) as (q & Hq & Hl & _).
  rewrite Hinst in Hq. injection Hq as <-. rewrite Horig in Hl.
  pose proof (launch_turn_run proto' n id request o p w Hl Hp) as Hrun.
  cbv zeta in Hrun. rewrite Hbind in Hrun.
  do 2 eexists. split; [exact Hrun|]. repeat split; reflexivity.
Qed.

(** With a port that binds the same launch has the same outcome and the
    same effects but for the three that report the failure. *)
Remark launch_with_bound_port (proto proto' : Prototype) n id request
    (o : gmap string JsVal) p (w : World) :
  proto !! "launchRequest" = Some (Native n) ->
  customizeNodeAdapterRequests proto = Return proto' ->
  o !! "program" = Some (JStr p) ->
  listen_outcome env (listening w) (resolved_port o) = Bound ->
  exists r w',
    launch_turn proto' id request (JObj o) w = (Return r, w')
    /\ r = match native_outcome env n with
           | None => Return tt
           | Some e => Throws e
           end
    /\ effects w'
       = effects w ++
         [ TelemetryReassign appName version APPINSIGHTS_INSTRUMENTATIONKEY
             (Path.resolve (cwd env) [p; "../.."]);
           HttpCreateServer;
           HttpListen (resolved_port o);
           NativeCall n (Session id) request
             (JObj (<["args" := JArr (sanitize o)]> o)) ]
    /\ listening w' = listening w ++ [resolved_port o].
Proof.
  intros Horig Hinst Hp Hbind.
  destruct (customizeNodeAdapterRequests_run proto) as (q & Hq & Hl & _).
  rewrite Hinst in Hq. injection Hq as <-. rewrite Horig in Hl.
  pose proof (launch_turn_run proto' n id request o p w Hl Hp) as Hrun.
  cbv zeta in Hrun. rewrite Hbind in Hrun.
  do 2 eexists. split; [exact Hrun|]. repeat split; reflexivity.
Qed.

(** *** The project root *)

(** C7, amended. The wrapped launch sets the project root to
    [path.resolve(args.program, "../..")], also when [listen] then refuses
    the port: for a program given as an absolute path of names that is the
    path without its last two names.  In the scenario of the specification,
    with no port, relative path, target or extra log arguments and platform
    ["ios"], the port is accepted, the vector is ["ios"; "9090"; default;
    "simulator"], and the program [/proj/ios/App.xcodeproj/..] gives the
    root [/]; it is the program [/proj/ios/App.xcodeproj] that gives
    [/proj]. *)
Theorem launch_project_root k this request (o : gmap string JsVal) p w :
  o !! "program" = Some (JStr p) ->
  exists vec w1 w0,
    wrapped_launchRequest k this request (JObj o) w
    = (if legal_port (resolved_port o)
       then k this request (JObj (<["args" := JArr vec]> o)) w1
       else (Throws (RangeError (bad_port_message env (resolved_port o))), w0))
    /\ projectRootPath w1 = Some (Path.resolve (cwd env) [p; "../.."])
    /\ projectRootPath w0 = Some (Path.resolve (cwd env) [p; "../.."])
    /\ (forall segs a b,
         Forall (fun s => Path.is_name s = true) (segs ++ [a; b]) ->
         p = "/" +:+ Path.join (segs ++ [a; b]) ->
         projectRootPath w1 = Some ("/" +:+ Path.join segs)
         /\ projectRootPath w0 = Some ("/" +:+ Path.join segs))
    /\ (field o "platform" = JStr "ios" ->
        field o "internalDebuggerPort" = JUndefined ->
        field o "iosRelativeProjectPath" = JUndefined ->
        field o "target" = JUndefined ->
        field o "logCatArguments" = JUndefined ->
        legal_port (resolved_port o) = true
        /\ vec = [ JStr "ios"; JStr "9090";
                   JStr DEFAULT_IOS_PROJECT_RELATIVE_PATH; JStr "simulator" ])
    /\ (field o "platform" = JStr "ios" ->
        isNullOrUndefined (field o "internalDebuggerPort") = true ->
        isNullOrUndefined (field o "iosRelativeProjectPath") = true ->
        isNullOrUndefined (field o "target") = true ->
        isNullOrUndefined (field o "logCatArguments") = true ->
        legal_port (resolved_port o) = true
        /\ vec = [ JStr "ios"; JStr "9090";
                   JStr DEFAULT_IOS_PROJECT_RELATIVE_PATH; JStr "simulator" ])
    /\ (p = "/proj/ios/App.xcodeproj/.." ->
        projectRootPath w1 = Some "/" /\ projectRootPath w0 = Some "/")
    /\ (p = "/proj/ios/App.xcodeproj" ->
        projectRootPath w1 = Some "/proj" /\ projectRootPath w0 = Some "/proj").
Proof.
  intros Hp. exists (sanitize o), (launched this o p w), (prepared p w).
  split; [apply wrapped_launchRequest_run; exact Hp|].
  do 2 (split; [reflexivity|]).
  split.
  { intros segs a b Hnames ->. cbn [launched prepared projectRootPath].
    rewrite resolve_grandparent by exact Hnames. split; reflexivity. }
  assert (field o "platform" = JStr "ios" ->
          isNullOrUndefined (field o "internalDebuggerPort") = true ->
          isNullOrUndefined (field o "iosRelativeProjectPath") = true ->
          isNullOrUndefined (field o "target") = true ->
          isNullOrUndefined (field o "logCatArguments") = true ->
          legal_port (resolved_port o) = true
          /\ sanitize o = [ JStr "ios"; JStr "9090";
                            JStr DEFAULT_IOS_PROJECT_RELATIVE_PATH;
                            JStr "simulator" ]) as Hscenario.
  { unfold sanitize, sanitize_fixed, sanitize_extra, resolved_port.
    intros -> Hport Hrel Htarget Hlog.
    destruct (field o "internalDebuggerPort"); try discriminate;
      destruct (field o "iosRelativeProjectPath"); try discriminate;
      destruct (field o "target"); try discriminate;
      destruct (field o "logCatArguments"); try discriminate;
      split; reflexivity. }
  split.
  { intros Hplat Hport Hrel Htarget Hlog.
    apply Hscenario; [exact Hplat|rewrite ?Hport, ?Hrel, ?Htarget, ?Hlog..];
      reflexivity. }
  split; [exact Hscenario|].
  split; intros ->; split; reflexivity.
Qed.

(** *** What installation replaces *)

(** C3, amended. Installation replaces two operations of the session type,
    launch and disconnect, by closures around what the slots held; the
    attach operation, like every other, stays what it was, so an attach
    request is handled as without the wrapper.  The wrapper's own
    [attachRequest] is the pass-through by which the wrapped launch, once
    [listen] has accepted the port, calls the original launch with the same
    receiver, request and args. *)
Theorem customize_replaces_launch_and_disconnect (proto : Prototype) :
  exists proto',
    customizeNodeAdapterRequests proto = Return proto'
    /\ proto' !! "launchRequest" = Some (LaunchWrapper (proto !! "launchRequest"))
    /\ proto' !! "disconnectRequest"
       = Some (DisconnectWrapper (proto !! "disconnectRequest"))
    /\ proto' !! "attachRequest" = proto !! "attachRequest"
    /\ (forall id request args,
         dispatch proto' "attachRequest" id request args
         = dispatch proto "attachRequest" id request args)
    /\ (forall launchRequest debugSession request args,
         attachRequest launchRequest debugSession request args
         = launchRequest debugSession request args)
    /\ (forall original this request (o : gmap string JsVal) p w,
         o !! "program" = Some (JStr p) ->
         invoke (LaunchWrapper (Some original)) this request (JObj o) w
         = if legal_port (resolved_port o)
           then attachRequest (invoke original) this request
                  (JObj (<["args" := JArr (sanitize o)]> o))
                  (launched this o p w)
           else (Throws (RangeError (bad_port_message env (resolved_port o))),
                 prepared p w)).
Proof.
  destruct (customizeNodeAdapterRequests_run proto) as (proto' & Hrun & Hl & Hd & Hrest).
  exists proto'. split; [exact Hrun|]. split; [exact Hl|]. split; [exact Hd|].
  assert (proto' !! "attachRequest" = proto !! "attachRequest") as Ha
    by (apply Hrest; discriminate).
  split; [exact Ha|].
  split; [intros; unfold dispatch; rewrite Ha; reflexivity|].
  split; [reflexivity|].
  intros original this request o p w Hp. cbn [invoke].
  rewrite (wrapped_launchRequest_run _ _ _ _ _ _ Hp). reflexivity.
Qed.

(** *** Installing around a missing operation *)

(** C9, amended. Installation never raises.  When the launch or disconnect
    operation is absent from the session type, the closure is installed all
    the same, around the missing original, and the TypeError of calling it
    comes with the first request: a launch throws it after its own effects,
    unless [listen] refused the port before; a disconnect throws it when
    the remote extension threw, unless what was thrown is null or
    undefined, when the TypeError is that of reading its message; and a
    disconnect writes it as a warning when the promise settled. *)
Theorem customize_never_fails (proto : Prototype) :
  exists proto',
    customizeNodeAdapterRequests proto = Return proto'
    /\ (proto !! "launchRequest" = None ->
        proto' !! "launchRequest" = Some (LaunchWrapper None)
        /\ forall id request (o : gmap string JsVal) p w,
             o !! "program" = Some (JStr p) ->
             dispatch proto' "launchRequest" id request (JObj o) w
             = if legal_port (resolved_port o)
               then (Throws (TypeError "Cannot read property 'call' of undefined"),
                     launched (Session id) o p w)
               else (Throws (RangeError (bad_port_message env (resolved_port o))),
                     prepared p w))
    /\ (proto !! "disconnectRequest" = None ->
        proto' !! "disconnectRequest" = Some (DisconnectWrapper None)
        /\ forall id response args w,
             pendingStops w = [] ->
             (forall e,
                remote env = ConstructionThrows e \/ remote env = StopThrows e ->
                exists message w',
                  disconnect_turn proto' id response args w
                  = (Return (Throws (TypeError message)), w')
                  /\ native_calls (effects w') = native_calls (effects w)
                  /\ (e <> ThrownValue JUndefined -> e <> ThrownValue JNull ->
                      message = "Cannot read property 'call' of undefined")
                  /\ (e = ThrownValue JUndefined ->
                      message = "Cannot read property 'message' of undefined")
                  /\ (e = ThrownValue JNull ->
                      message = "Cannot read property 'message' of null"))
             /\ ((exists outcome, stop_settlement = Some outcome) ->
                 exists w',
                   disconnect_turn proto' id response args w = (Return (Return tt), w')
                   /\ effects w'
                      = effects w ++
                        [ AtProjectRootPath (projectRootPath w);
                          StopMonitoringLogcat;
                          StderrWrite
                            ("WARNING: Couldn't stop monitoring logcat: "
                             +:+ "Cannot read property 'call' of undefined"
                             +:+ LF) ])).
Proof.
  destruct (customizeNodeAdapterRequests_run proto) as (proto' & Hrun & Hl & Hd & _).
  exists proto'. split; [exact Hrun|]. split.
  - intros Hnone. rewrite Hnone in Hl. split; [exact Hl|].
    intros id request o p w Hp. unfold dispatch. rewrite Hl. unfold call.
    cbn [invoke]. rewrite (wrapped_launchRequest_run _ _ _ _ _ _ Hp).
    reflexivity.
  - intros Hnone. rewrite Hnone in Hd. split; [exact Hd|].
    intros id response args w Hpending. split.
    + intros e Hremote.
      unfold disconnect_turn, disconnect_then, dispatch, gets, bind.
      rewrite Hd, Hpending.
      assert ((e = ThrownValue JUndefined \/ e = ThrownValue JNull)
              \/ (e <> ThrownValue JUndefined /\ e <> ThrownValue JNull))
        as [Hnullish | [Hu Hn]].
      { destruct e as [name message|[]]; (left; auto; fail) || (right; split; congruence). }
      * assert (exists v, e = ThrownValue v /\ (v = JUndefined \/ v = JNull))
          as (v & -> & Hv) by (destruct Hnullish as [-> | ->]; eauto).
        destruct Hv as [-> | ->]; destruct Hremote as [Hr|Hr].
        all: run_with ltac:(rewrite ?Hpending, ?Hr).
        all: do 2 eexists; split; [reflexivity|]; cbn.
        all: rewrite <- ?app_assoc, native_calls_app, app_nil_r.
        all: repeat split; congruence.
      * destruct (message_text_defined e Hu Hn) as [text He].
        destruct Hremote as [Hr|Hr].
        all: run_with ltac:(rewrite ?Hpending, ?Hr, ?He).
        all: do 2 eexists; split; [reflexivity|]; cbn.
        all: rewrite <- ?app_assoc, native_calls_app, app_nil_r.
        all: repeat split; congruence.
    + intros [outcome Hout]. unfold stop_settlement in Hout.
      unfold disconnect_turn, disconnect_then, dispatch, gets, bind.
      rewrite Hd, Hpending.
      destruct (remote env) eqn:Hr; try discriminate.
      all: run_with ltac:(rewrite ?Hpending, ?Hr); cbn.
      all: rewrite <- ?app_assoc; eexists; split; reflexivity.
Qed.

(** *** Launch requests the wrapper cannot serve *)

(** X1. Without a string in [args.program] the wrapped launch throws a TypeError
    at once: nothing was done, and the original launch is not called. *)
Theorem launch_without_program_throws k this request (args : JsVal) (w : World) :
  (forall p, get args "program" <> Some (JStr p)) ->
  exists message,
    wrapped_launchRequest k this request args w = (Throws (TypeError message), w).
Proof.
  intros Hprogram. unfold wrapped_launchRequest, read, bind.
  destruct (get args "program") as [program|] eqn:Hget.
  - destruct program; try (eexists; reflexivity).
    exfalso. eapply Hprogram. reflexivity.
  - eexists. reflexivity.
Qed.

(** *** What the original launch receives *)

Lemma sanitize_insert_args (o : gmap string JsVal) (x : JsVal) :
  sanitize (<["args" := x]> o) = sanitize o.
Proof.
  apply sanitize_forwarded_keys. intros key Hkey.
  apply lookup_insert_ne. intros <-. cbn in Hkey.
  repeat (destruct Hkey as [Hkey|Hkey]; [discriminate|]). exact Hkey.
Qed.

Lemma resolved_port_insert_args (o : gmap string JsVal) (x : JsVal) :
  resolved_port (<["args" := x]> o) = resolved_port o.
Proof.
  unfold resolved_port, field. rewrite lookup_insert_ne by done. reflexivity.
Qed.

Lemma launched_insert_args this (o : gmap string JsVal) (x : JsVal) p w :
  launched this (<["args" := x]> o) p w = launched this o p w.
Proof. unfold launched. rewrite resolved_port_insert_args. reflexivity. Qed.

(** X2. Whatever [args.args] held on entry is gone: the object handed to the
    original launch is the one the same arguments without that entry give.
    Every other entry of the object is handed over as it came.  When
    [listen] refuses the port the launch fails the same way with and
    without the entry. *)
Theorem launch_overwrites_incoming_args k this request
    (o : gmap string JsVal) p (incoming : JsVal) (w : World) :
  o !! "program" = Some (JStr p) ->
  exists (o' : gmap string JsVal) w1 w0,
    wrapped_launchRequest k this request (JObj o) w
    = (if legal_port (resolved_port o)
       then k this request (JObj o') w1
       else (Throws (RangeError (bad_port_message env (resolved_port o))), w0))
    /\ wrapped_launchRequest k this request (JObj (<["args" := incoming]> o)) w
       = (if legal_port (resolved_port o)
          then k this request (JObj o') w1
          else (Throws (RangeError (bad_port_message env (resolved_port o))), w0))
    /\ o' !! "args" = Some (JArr (sanitize o))
    /\ forall key, key <> "args" -> o' !! key = o !! key.
Proof.
  intros Hp.
  exists (<["args" := JArr (sanitize o)]> o), (launched this o p w),
    (prepared p w).
  split; [apply wrapped_launchRequest_run; exact Hp|].
  split.
  - assert ((<["args" := incoming]> o) !! "program" = Some (JStr p)) as Hp'
      by (rewrite lookup_insert_ne by done; exact Hp).
    rewrite (wrapped_launchRequest_run _ _ _ _ _ _ Hp').
    rewrite sanitize_insert_args, resolved_port_insert_args, insert_insert_eq,
      launched_insert_args.
    reflexivity.
  - split; [apply lookup_insert_eq|].
    intros key Hkey. apply lookup_insert_ne. congruence.
Qed.

(** *** The port and its string *)

(** X3. The port the wrapped launch asks for is never 0.  When [listen]
    accepts it, the second slot of the vector parses back to exactly that
    port: a process that reads the slot as the wrapper reads
    [internalDebuggerPort] finds the server. *)
Theorem launch_port_round_trip k this request (o : gmap string JsVal) p w :
  o !! "program" = Some (JStr p) ->
  exists port,
    port <> 0
    /\ (1 <= port <= 65535 ->
        exists slot vec w1,
          wrapped_launchRequest k this request (JObj o) w
          = k this request (JObj (<["args" := JArr vec]> o)) w1
          /\ servers w1 = servers w ++ [mkServer this port]
          /\ vec !! 1%nat = Some (JStr slot)
          /\ parseInt10 (JStr slot) = Some port
          /\ parseInt10_or (JStr slot) 9090 = port)
    /\ (port < 0 \/ 65535 < port ->
        wrapped_launchRequest k this request (JObj o) w
        = (Throws (RangeError (bad_port_message env port)), prepared p w)).
Proof.
  intros Hp. exists (resolved_port o).
  pose proof (resolved_port_nonzero o) as Hport.
  split; [exact Hport|]. split.
  - intros Hrange.
    assert (legal_port (resolved_port o) = true) as Hlegal
      by (apply legal_port_spec; lia).
    exists (decimal (resolved_port o)), (sanitize o), (launched this o p w).
    split; [apply wrapped_launchRequest_legal; assumption|].
    split; [reflexivity|].
    split; [apply sanitize_port_slot, Hlegal|].
    split; [apply parseInt10_decimal|].
    unfold parseInt10_or. rewrite parseInt10_decimal.
    destruct (Z.eqb_spec (resolved_port o) 0); [contradiction|reflexivity].
  - intros Hrange.
    assert (legal_port (resolved_port o) = false) as Hlegal.
    { destruct (legal_port (resolved_port o)) eqn:H; [|reflexivity].
      apply legal_port_spec in H. lia. }
    rewrite (wrapped_launchRequest_run _ _ _ _ _ _ Hp), Hlegal. reflexivity.
Qed.

(** X4. The wrapper itself checks the port against no range; [listen] does.
    An integer below 0 or above 65535, given as a number or as digits with
    a minus sign, makes [listen] throw a RangeError out of the wrapped
    launch, after the project root was set, the telemetry reporter
    reassigned and the server made, and before anything is written to
    [args.args] or the original launch is called.  Digits are used up to the
    first character that is not one; zero falls back to 9090. *)
Theorem launch_port_is_not_validated k this request (o : gmap string JsVal) p w :
  o !! "program" = Some (JStr p) ->
  (forall n : SafeInteger,
     safe_value n < 0 \/ 65535 < safe_value n ->
     field o "internalDebuggerPort" = JNum n ->
     wrapped_launchRequest k this request (JObj o) w
     = (Throws (RangeError (bad_port_message env (safe_value n))),
        mkWorld (Some (Path.resolve (cwd env) [p; "../.."])) (sourceMaps w)
          (servers w) (listening w) (pendingStops w) (pendingDones w)
          (effects w ++
           [ TelemetryReassign appName version APPINSIGHTS_INSTRUMENTATIONKEY
               (Path.resolve (cwd env) [p; "../.."]);
             HttpCreateServer ])))
  /\ (forall d,
        Z.of_uint d <> 0 ->
        field o "internalDebuggerPort"
        = JStr (String "-" (NilEmpty.string_of_uint d)) ->
        wrapped_launchRequest k this request (JObj o) w
        = (Throws (RangeError (bad_port_message env (- Z.of_uint d))),
           prepared p w))
  /\ (forall d rest,
        1 <= Z.of_uint d <= 65535 -> digit_prefix rest = Decimal.Nil ->
        field o "internalDebuggerPort"
        = JStr (NilEmpty.string_of_uint d +:+ rest) ->
        exists vec w1,
          wrapped_launchRequest k this request (JObj o) w
          = k this request (JObj (<["args" := JArr vec]> o)) w1
          /\ servers w1 = servers w ++ [mkServer this (Z.of_uint d)]
          /\ vec !! 1%nat = Some (JStr (decimal (Z.of_uint d))))
  /\ (forall d,
        Z.of_uint d = 0 ->
        field o "internalDebuggerPort" = JNum (safe 0)
        \/ field o "internalDebuggerPort" = JStr (NilEmpty.string_of_uint d) ->
        exists vec w1,
          wrapped_launchRequest k this request (JObj o) w
          = k this request (JObj (<["args" := JArr vec]> o)) w1
          /\ servers w1 = servers w ++ [mkServer this 9090]
          /\ vec !! 1%nat = Some (JStr "9090")).
Proof.
  intros Hp.
  assert (forall port, resolved_port o = port -> port < 0 \/ 65535 < port ->
            wrapped_launchRequest k this request (JObj o) w
            = (Throws (RangeError (bad_port_message env port)), prepared p w))
    as Hrefused.
  { intros port <- Hrange.
    assert (legal_port (resolved_port o) = false) as Hlegal.
    { destruct (legal_port (resolved_port o)) eqn:H; [|reflexivity].
      apply legal_port_spec in H. lia. }
    rewrite (wrapped_launchRequest_run _ _ _ _ _ _ Hp), Hlegal. reflexivity. }
  assert (forall port, resolved_port o = port -> 1 <= port <= 65535 ->
            exists vec w1,
              wrapped_launchRequest k this request (JObj o) w
              = k this request (JObj (<["args" := JArr vec]> o)) w1
              /\ servers w1 = servers w ++ [mkServer this port]
              /\ vec !! 1%nat = Some (JStr (decimal port)))
    as Haccepted.
  { intros port <- Hrange.
    assert (legal_port (resolved_port o) = true) as Hlegal
      by (apply legal_port_spec; lia).
    exists (sanitize o), (launched this o p w).
    split; [apply wrapped_launchRequest_legal; assumption|].
    split; [reflexivity|apply sanitize_port_slot, Hlegal]. }
  split.
  { intros n Hrange Hn. apply Hrefused; [|exact Hrange].
    rewrite (resolved_port_JNum o n Hn).
    destruct (Z.eqb_spec (safe_value n) 0); [lia|reflexivity]. }
  split.
  { intros d Hd Hfield.
    assert (0 <= Z.of_uint d) by (unfold Z.of_uint; lia).
    apply Hrefused; [|lia].
    unfold resolved_port, parseInt10_or. rewrite Hfield.
    rewrite parseInt10_minus_digits by (intros ->; apply Hd; reflexivity).
    destruct (Z.eqb_spec (- Z.of_uint d) 0); [lia|reflexivity]. }
  split.
  { intros d rest Hd Hrest Hfield. apply Haccepted; [|exact Hd].
    unfold resolved_port, parseInt10_or. rewrite Hfield.
    rewrite parseInt10_digits_then
      by (try exact Hrest; intros ->; cbn in Hd; lia).
    destruct (Z.eqb_spec (Z.of_uint d) 0); [lia|reflexivity]. }
  intros d Hd Hfield.
  change "9090" with (decimal 9090). apply Haccepted; [|lia].
  destruct Hfield as [Hfield | Hfield].
  - rewrite (resolved_port_JNum o _ Hfield). reflexivity.
  - unfold resolved_port, parseInt10_or. rewrite Hfield.
    assert (d = Decimal.Nil \/ d <> Decimal.Nil) as [->|Hnil]
      by (destruct d; [left; reflexivity|right; discriminate..]);
      [reflexivity|].
    rewrite parseInt10_digits by exact Hnil. rewrite Hd. reflexivity.
Qed.

(** *** The control server, whoever it serves *)

(** X5. The request listener never throws and ends every response exactly once,
    with 200 for [/refreshBreakpoints] and 404 otherwise, also when the
    launch had no receiver; only then a refresh request sends no event and
    leaves every cache alone. *)
Theorem requestListener_always_answers (this : Receiver) url (w : World) :
  exists w' sent,
    requestListener this url w = (Return tt, w')
    /\ effects w'
       = effects w ++ sent ++
         [HttpEnd (if String.eqb url "/refreshBreakpoints" then 200 else 404)]
    /\ sent
       = match this with
         | Session id =>
             if String.eqb url "/refreshBreakpoints"
             then [SendEvent id InitializedEvent] else []
         | NoReceiver => []
         end
    /\ projectRootPath w' = projectRootPath w
    /\ servers w' = servers w
    /\ pendingStops w' = pendingStops w
    /\ listening w' = listening w
    /\ pendingDones w' = pendingDones w
    /\ (this = NoReceiver -> sourceMaps w' = sourceMaps w).
Proof.
  destruct (String.eqb url "/refreshBreakpoints") eqn:Hurl.
  - apply String.eqb_eq in Hurl as ->. destruct this as [|id].
    + do 2 eexists.
      split; [unfold requestListener; rewrite String.eqb_refl; reflexivity|].
      repeat split; reflexivity.
    + do 2 eexists. split; [apply requestListener_refresh|].
      cbn. repeat split; try reflexivity. discriminate.
  - apply String.eqb_neq in Hurl. do 2 eexists.
    split; [apply requestListener_other; exact Hurl|].
    cbn. destruct this; repeat split; reflexivity.
Qed.

(** X6. A second refresh request finds the caches of the session empty and
    leaves them so; each request sends its own Initialized event; and no
    request gives source maps to a session that has none, or takes them from
    one that has. *)
Theorem refresh_twice id (w : World) :
  exists w1 w2,
    requestListener (Session id) "/refreshBreakpoints" w = (Return tt, w1)
    /\ requestListener (Session id) "/refreshBreakpoints" w1 = (Return tt, w2)
    /\ sourceMaps w2 = sourceMaps w1
    /\ dom (sourceMaps w1) = dom (sourceMaps w)
    /\ effects w2
       = effects w ++
         [ SendEvent id InitializedEvent; HttpEnd 200;
           SendEvent id InitializedEvent; HttpEnd 200 ].
Proof.
  do 2 eexists. split; [apply requestListener_refresh|].
  split; [apply requestListener_refresh|]. cbn.
  destruct (sourceMaps w !! id) as [sm|] eqn:Hsm.
  - rewrite lookup_insert_eq, insert_insert_eq.
    split; [reflexivity|]. split; [|rewrite <- app_assoc; reflexivity].
    rewrite dom_insert_L. apply elem_of_dom_2 in Hsm.
    apply subseteq_union_1_L, singleton_subseteq_l. exact Hsm.
  - rewrite Hsm. split; [reflexivity|].
    split; [reflexivity|rewrite <- app_assoc; reflexivity].
Qed.

(** *** Whole turns *)

(** What every launch request to a customized session does. *)
Lemma launch_turn_summary (proto : Prototype) n id request
    (o : gmap string JsVal) p (w : World) :
  proto !! "launchRequest" = Some (LaunchWrapper (Some (Native n))) ->
  o !! "program" = Some (JStr p) ->
  exists r w' new,
    launch_turn proto id request (JObj o) w = (Return r, w')
    /\ projectRootPath w' = Some (Path.resolve (cwd env) [p; "../.."])
    /\ servers w'
       = servers w ++
         (if legal_port (resolved_port o)
          then [mkServer (Session id) (resolved_port o)] else [])
    /\ pendingStops w' = pendingStops w
    /\ pendingDones w' = pendingDones w
    /\ sourceMaps w' = sourceMaps w
    /\ effects w' = effects w ++ new
    /\ remote_roots new = []
    /\ native_calls new
       = if legal_port (resolved_port o)
         then [(n, Session id, request, JObj (<["args" := JArr (sanitize o)]> o))]
         else [].
Proof.
  intros Hl Hp.
  pose proof (launch_turn_run proto n id request o p w Hl Hp) as Hrun.
  cbv zeta in Hrun. unfold listen_outcome in Hrun.
  destruct (legal_port (resolved_port o)); cbn [negb] in Hrun.
  2: { do 3 eexists. split; [exact Hrun|]. cbn. rewrite app_nil_r.
       repeat split; reflexivity. }
  destruct (port_in_use env (resolved_port o));
    [|destruct (bool_decide (resolved_port o ∈ listening w))].
  all: do 3 eexists; split; [exact Hrun|]; cbn; repeat split; reflexivity.
Qed.

Lemma report_is_quiet (reason : Thrown) :
  remote_roots (report reason) = [] /\ native_calls (report reason) = [].
Proof. unfold report. destruct (message_text reason); split; reflexivity. Qed.

(** What every disconnect request to a customized session does. *)
Lemma disconnect_turn_summary (proto : Prototype) n id response args (w : World) :
  proto !! "disconnectRequest" = Some (DisconnectWrapper (Some (Native n))) ->
  pendingStops w = [] ->
  exists r w' new,
    disconnect_turn proto id response args w = (Return r, w')
    /\ projectRootPath w' = projectRootPath w
    /\ servers w' = servers w
    /\ sourceMaps w' = sourceMaps w
    /\ listening w' = listening w
    /\ pendingDones w' = pendingDones w
    /\ effects w' = effects w ++ new
    /\ remote_roots new = [projectRootPath w]
    /\ (remote env <> StopPending -> pendingStops w' = []).
Proof.
  intros Hd Hpending.
  pose proof (disconnect_turn_run proto n id response args w Hd Hpending)
    as Hrun.
  cbv zeta in Hrun.
  destruct (remote env) as [e|e| |e|] eqn:Hr;
    try destruct (message_text e) as [text|x] eqn:He.
  all: try (destruct (native_outcome env n) as [t|] eqn:Hn).
  all: do 3 eexists; split; [exact Hrun|].
  all: cbn [projectRootPath servers sourceMaps listening pendingDones effects
            pendingStops].
  all: do 6 (split; [reflexivity|]).
  all: rewrite ?remote_roots_app, ?(proj1 (report_is_quiet _)).
  all: split; [reflexivity|congruence].
Qed.

(** *** The project root is the wrapper's, not the session's *)

(** X7. The wrapper keeps one project root for all sessions: after two launches
    a disconnect of the first session asks for the remote extension at the
    root of the second launch. *)
Theorem disconnect_uses_last_launched_root (proto proto' : Prototype) nl nd
    id1 id2 request1 request2 (o1 o2 : gmap string JsVal) p1 p2 response args
    (w : World) :
  proto !! "launchRequest" = Some (Native nl) ->
  proto !! "disconnectRequest" = Some (Native nd) ->
  customizeNodeAdapterRequests proto = Return proto' ->
  o1 !! "program" = Some (JStr p1) ->
  o2 !! "program" = Some (JStr p2) ->
  pendingStops w = [] ->
  exists r w' new,
    (launch_turn proto' id1 request1 (JObj o1) ;;
     launch_turn proto' id2 request2 (JObj o2) ;;
     disconnect_turn proto' id1 response args) w
    = (Return r, w')
    /\ effects w' = effects w ++ new
    /\ remote_roots new = [Some (Path.resolve (cwd env) [p2; "../.."])].
Proof.
  intros Hl Hd Hinst Hp1 Hp2 Hpending.
  destruct (customizeNodeAdapterRequests_run proto) as (q & Hq & Hl' & Hd' & _).
  rewrite Hinst in Hq. injection Hq as <-. rewrite Hl in Hl'. rewrite Hd in Hd'.
  destruct (launch_turn_summary proto' nl id1 request1 o1 p1 w Hl' Hp1)
    as (r1 & w1 & new1 & Hrun1 & _ & _ & Hpend1 & _ & _ & Heff1 & Hroots1 & _).
  destruct (launch_turn_summary proto' nl id2 request2 o2 p2 w1 Hl' Hp2)
    as (r2 & w2 & new2 & Hrun2 & Hroot2 & _ & Hpend2 & _ & _ & Heff2 & Hroots2 & _).
  destruct (disconnect_turn_summary proto' nd id1 response args w2 Hd')
    as (r3 & w3 & new3 & Hrun3 & _ & _ & _ & _ & _ & Heff3 & Hroots3 & _);
    [congruence|].
  exists r3, w3, (new1 ++ new2 ++ new3).
  rewrite (bind_Return _ _ _ _ _ Hrun1), (bind_Return _ _ _ _ _ Hrun2).
  split; [exact Hrun3|].
  split; [rewrite Heff3, Heff2, Heff1, <- !app_assoc; reflexivity|].
  rewrite !remote_roots_app, Hroots1, Hroots2, Hroots3, Hroot2. reflexivity.
Qed.

(** X8. A disconnect that comes before any launch asks for the remote extension
    at an undefined project root. *)
Theorem disconnect_before_launch (proto proto' : Prototype) nd id response args
    (w : World) :
  proto !! "disconnectRequest" = Some (Native nd) ->
  customizeNodeAdapterRequests proto = Return proto' ->
  pendingStops w = [] ->
  projectRootPath w = None ->
  exists r w' new,
    disconnect_turn proto' id response args w = (Return r, w')
    /\ effects w' = effects w ++ new
    /\ remote_roots new = [None]
    /\ projectRootPath w' = None.
Proof.
  intros Hd Hinst Hpending Hroot.
  destruct (customizeNodeAdapterRequests_run proto) as (q & Hq & _ & Hd' & _).
  rewrite Hinst in Hq. injection Hq as <-. rewrite Hd in Hd'.
  destruct (disconnect_turn_summary proto' nd id response args w Hd' Hpending)
    as (r & w' & new & Hrun & Hroot' & _ & _ & _ & _ & Heff & Hroots & _).
  exists r, w', new. rewrite Hroot in *. auto.
Qed.

(** *** Servers are never closed *)

(** X9. A disconnect leaves the control server of the launch registered: after a
    launch, a disconnect and a second launch of the same configuration there
    are two servers for the same port, when that is one [listen] accepts. *)
Theorem disconnect_keeps_the_server (proto proto' : Prototype) nl nd id
    request (o : gmap string JsVal) p response args (w : World) :
  proto !! "launchRequest" = Some (Native nl) ->
  proto !! "disconnectRequest" = Some (Native nd) ->
  customizeNodeAdapterRequests proto = Return proto' ->
  o !! "program" = Some (JStr p) ->
  pendingStops w = [] ->
  exists r w',
    (launch_turn proto' id request (JObj o) ;;
     disconnect_turn proto' id response args ;;
     launch_turn proto' id request (JObj o)) w
    = (Return r, w')
    /\ servers w'
       = servers w ++
         (if legal_port (resolved_port o)
          then [ mkServer (Session id) (resolved_port o);
                 mkServer (Session id) (resolved_port o) ]
          else []).
Proof.
  intros Hl Hd Hinst Hp Hpending.
  destruct (customizeNodeAdapterRequests_run proto) as (q & Hq & Hl' & Hd' & _).
  rewrite Hinst in Hq. injection Hq as <-. rewrite Hl in Hl'. rewrite Hd in Hd'.
  destruct (launch_turn_summary proto' nl id request o p w Hl' Hp)
    as (r1 & w1 & new1 & Hrun1 & _ & Hsrv1 & Hpend1 & _).
  destruct (disconnect_turn_summary proto' nd id response args w1 Hd')
    as (r2 & w2 & new2 & Hrun2 & _ & Hsrv2 & _); [congruence|].
  destruct (launch_turn_summary proto' nl id request o p w2 Hl' Hp)
    as (r3 & w3 & new3 & Hrun3 & _ & Hsrv3 & _).
  exists r3, w3.
  rewrite (bind_Return _ _ _ _ _ Hrun1), (bind_Return _ _ _ _ _ Hrun2).
  split; [exact Hrun3|].
  rewrite Hsrv3, Hsrv2, Hsrv1, <- app_assoc.
  destruct (legal_port (resolved_port o)); reflexivity.
Qed.

(** X20. The port stays taken.  When the control server of a launch bound
    its port, the server of a second launch of the same configuration in
    the same process, after a disconnect or not, cannot bind it: its
    ["error"] listener reports the failure on the session, and the second
    launch delegates all the same. *)
Theorem relaunch_cannot_bind (proto proto' : Prototype) nl nd id
    request (o : gmap string JsVal) p response args (w : World) :
  proto !! "launchRequest" = Some (Native nl) ->
  proto !! "disconnectRequest" = Some (Native nd) ->
  customizeNodeAdapterRequests proto = Return proto' ->
  o !! "program" = Some (JStr p) ->
  pendingStops w = [] ->
  listen_outcome env (listening w) (resolved_port o) = Bound ->
  exists r w' before err,
    (launch_turn proto' id request (JObj o) ;;
     disconnect_turn proto' id response args ;;
     launch_turn proto' id request (JObj o)) w
    = (Return r, w')
    /\ listening w' = listening w ++ [resolved_port o]
    /\ effects w'
       = before ++
         [ NativeCall nl (Session id) request
             (JObj (<["args" := JArr (sanitize o)]> o));
           TelemetrySimpleEvent "reinitializeServerError";
           SendEvent id
             (OutputEvent
                ("Error in debug adapter server: " +:+ Error_toString err)
                (Some "stderr"));
           SendEvent id
             (OutputEvent
                "Breakpoints may not update. Consider restarting and specifying a different 'internalDebuggerPort' in launch.json"
                None) ].
Proof.
  intros Hl Hd Hinst Hp Hpending Hbound.
  destruct (customizeNodeAdapterRequests_run proto) as (q & Hq & Hl' & Hd' & _).
  rewrite Hinst in Hq. injection Hq as <-. rewrite Hl in Hl'. rewrite Hd in Hd'.
  pose proof (launch_turn_run proto' nl id request o p w Hl' Hp) as Hrun1.
  cbv zeta in Hrun1. rewrite Hbound in Hrun1.
  rewrite (bind_Return _ _ _ _ _ Hrun1).
  match type of Hrun1 with _ = (_, ?w1) =>
    destruct (disconnect_turn_summary proto' nd id response args w1 Hd' Hpending)
      as (r2 & w2 & new2 & Hrun2 & _ & _ & _ & Hlst2 & _ & Heff2 & _)
  end.
  rewrite (bind_Return _ _ _ _ _ Hrun2).
  pose proof (launch_turn_run proto' nl id request o p w2 Hl' Hp) as Hrun3.
  cbv zeta in Hrun3. rewrite Hlst2 in Hrun3. cbn [listening] in Hrun3.
  unfold listen_outcome in Hbound, Hrun3.
  destruct (legal_port (resolved_port o)); cbn [negb] in Hbound, Hrun3;
    [|discriminate].
  destruct (port_in_use env (resolved_port o)); [discriminate|].
  rewrite bool_decide_eq_true_2 in Hrun3
    by (apply elem_of_app; right; constructor).
  eexists _, _,
    (effects w2 ++
     [ TelemetryReassign appName version APPINSIGHTS_INSTRUMENTATIONKEY
         (Path.resolve (cwd env) [p; "../.."]);
       HttpCreateServer; HttpListen (resolved_port o) ]),
    (EADDRINUSE (resolved_port o)).
  split; [exact Hrun3|]. cbn [listening effects].
  split; [reflexivity|].
  rewrite <- !app_assoc. reflexivity.
Qed.

(** *** Installing twice *)

(** X10. Installation is not idempotent.  After a second installation one launch
    request reassigns the telemetry reporter twice and makes two servers
    that are both told to listen on the same port, before the original
    launch is called, once, with the same object as after a single
    installation.  When [listen] refuses the port, it is the first of the
    two closures that fails, as after a single installation. *)
Theorem second_installation_doubles_launch (proto proto' proto'' : Prototype)
    n id request (o : gmap string JsVal) p (w : World) :
  proto !! "launchRequest" = Some (Native n) ->
  customizeNodeAdapterRequests proto = Return proto' ->
  customizeNodeAdapterRequests proto' = Return proto'' ->
  o !! "program" = Some (JStr p) ->
  exists w2 w0,
    dispatch proto'' "launchRequest" id request (JObj o) w
    = (if legal_port (resolved_port o)
       then call_native n (Session id) request
              (JObj (<["args" := JArr (sanitize o)]> o)) w2
       else (Throws (RangeError (bad_port_message env (resolved_port o))), w0))
    /\ servers w2
       = servers w ++
         [ mkServer (Session id) (resolved_port o);
           mkServer (Session id) (resolved_port o) ]
    /\ effects w2
       = effects w ++
         [ TelemetryReassign appName version APPINSIGHTS_INSTRUMENTATIONKEY
             (Path.resolve (cwd env) [p; "../.."]);
           HttpCreateServer;
           HttpListen (resolved_port o);
           TelemetryReassign appName version APPINSIGHTS_INSTRUMENTATIONKEY
             (Path.resolve (cwd env) [p; "../.."]);
           HttpCreateServer;
           HttpListen (resolved_port o) ]
    /\ servers w0 = servers w
    /\ effects w0
       = effects w ++
         [ TelemetryReassign appName version APPINSIGHTS_INSTRUMENTATIONKEY
             (Path.resolve (cwd env) [p; "../.."]);
           HttpCreateServer ].
Proof.
  intros Hl Hinst Hinst' Hp.
  destruct (customizeNodeAdapterRequests_run proto) as (q & Hq & Hl' & _).
  rewrite Hinst in Hq. injection Hq as <-. rewrite Hl in Hl'.
  destruct (customizeNodeAdapterRequests_run proto') as (q & Hq & Hl'' & _).
  rewrite Hinst' in Hq. injection Hq as <-. rewrite Hl' in Hl''.
  exists (launched (Session id) o p (launched (Session id) o p w)),
    (prepared p w).
  split.
  - unfold dispatch. rewrite Hl''. unfold call. cbn [invoke].
    rewrite (wrapped_launchRequest_run _ _ _ _ _ _ Hp).
    destruct (legal_port (resolved_port o)) eqn:Hlegal; [|reflexivity].
    assert ((<["args" := JArr (sanitize o)]> o) !! "program" = Some (JStr p))
      as Hp' by (rewrite lookup_insert_ne by done; exact Hp).
    rewrite (wrapped_launchRequest_run _ _ _ _ _ _ Hp').
    rewrite resolved_port_insert_args, Hlegal.
    rewrite sanitize_insert_args, insert_insert_eq, launched_insert_args.
    reflexivity.
  - cbn. rewrite <- !app_assoc. repeat split; reflexivity.
Qed.

(** X11. After a second installation a disconnect request asks for the
    remote extension twice and still calls the original disconnect once.
    When the promises settle, the request itself and the settling of the
    first promise call nothing: the original disconnect is called when the
    second promise has settled, in whichever order the event loop runs the
    reactions that wait by then. *)
Theorem second_installation_doubles_disconnect (proto proto' proto'' : Prototype)
    n id response args (w : World) :
  proto !! "disconnectRequest" = Some (Native n) ->
  customizeNodeAdapterRequests proto = Return proto' ->
  customizeNodeAdapterRequests proto' = Return proto'' ->
  pendingStops w = [] ->
  pendingDones w = [] ->
  remote env = StopResolves \/ (exists reason, remote env = StopRejects reason) ->
  (exists w1 new1,
     disconnect_then [] proto'' id response args w = (Return (Return tt), w1)
     /\ effects w1 = effects w ++ new1
     /\ remote_roots new1 = [projectRootPath w]
     /\ native_calls new1 = []
     /\ length (pendingStops w1) = 1%nat)
  /\ (exists w1 new1,
        disconnect_then [StopSettles 0] proto'' id response args w
        = (Return (Return tt), w1)
        /\ effects w1 = effects w ++ new1
        /\ remote_roots new1 = [projectRootPath w; projectRootPath w]
        /\ native_calls new1 = []
        /\ length (pendingStops w1) = 1%nat)
  /\ forall schedule,
       In schedule
         [ [StopSettles 0; DoneReaction 0; StopSettles 0; DoneReaction 0];
           [StopSettles 0; StopSettles 0; DoneReaction 0; DoneReaction 0];
           [StopSettles 0; StopSettles 0; DoneReaction 1; DoneReaction 0] ] ->
       exists w' new,
         disconnect_then schedule proto'' id response args w
         = (Return (Return tt), w')
         /\ effects w' = effects w ++ new
         /\ remote_roots new = [projectRootPath w; projectRootPath w]
         /\ native_calls new = [(n, Session id, response, args)]
         /\ pendingStops w' = []
         /\ pendingDones w' = [].
Proof.
  intros Hd Hinst Hinst' Hpending Hdones Hremote.
  destruct (customizeNodeAdapterRequests_run proto) as (q & Hq & _ & Hd' & _).
  rewrite Hinst in Hq. injection Hq as <-. rewrite Hd in Hd'.
  destruct (customizeNodeAdapterRequests_run proto') as (q & Hq & _ & Hd'' & _).
  rewrite Hinst' in Hq. injection Hq as <-. rewrite Hd' in Hd''.
  destruct Hremote as [Hr | [reason Hr]];
    [|destruct (message_text reason) eqn:He].
  all: destruct (native_outcome env n) as [t|] eqn:Hn;
    [destruct (message_text t) eqn:Ht|].
  all: split; [|split; [|intros schedule Hin;
         repeat (destruct Hin as [<- | Hin]); [| | |destruct Hin]]].
  all: unfold disconnect_then, dispatch; rewrite Hd''.
  all: run_with ltac:(rewrite ?Hpending, ?Hdones, ?Hr, ?Hn, ?He, ?Ht).
  all: do 2 eexists; split; [reflexivity|]; cbn [effects pendingStops pendingDones].
  all: rewrite <- ?app_assoc.
  all: split; [reflexivity|]; cbn.
  all: repeat split; reflexivity.
Qed.

(** *** Errors of the original disconnect *)

(** X12. What the original disconnect throws reaches the caller only when
    the remote extension threw something that has a message to read.  When
    the promise settled, the request returns normally, and the error takes
    the place of any rejection reason: its message is written to the error
    stream when it is an Error with one, the thrown string when it is a
    string; and when it is null or undefined nothing is written, the
    TypeError of reading its message being left uncaught. *)
Theorem disconnect_error_propagation (proto proto' : Prototype) n id
    response args e (w : World) :
  proto !! "disconnectRequest" = Some (Native n) ->
  customizeNodeAdapterRequests proto = Return proto' ->
  pendingStops w = [] ->
  native_outcome env n = Some e ->
  ((exists outcome, stop_settlement = Some outcome) ->
   exists w' tail,
     disconnect_turn proto' id response args w = (Return (Return tt), w')
     /\ effects w'
        = effects w ++
          [ AtProjectRootPath (projectRootPath w);
            StopMonitoringLogcat;
            NativeCall n (Session id) response args ] ++ tail
     /\ (forall name message,
           e = ErrorObject name message -> message <> "" ->
           tail = [StderrWrite ("WARNING: Couldn't stop monitoring logcat: "
                                +:+ message +:+ LF)])
     /\ (forall s,
           e = ThrownValue (JStr s) ->
           tail = [StderrWrite ("WARNING: Couldn't stop monitoring logcat: "
                                +:+ s +:+ LF)])
     /\ (e = ThrownValue JUndefined ->
         tail = [UncaughtException
                   (TypeError "Cannot read property 'message' of undefined")])
     /\ (e = ThrownValue JNull ->
         tail = [UncaughtException
                   (TypeError "Cannot read property 'message' of null")]))
  /\ (forall x,
        remote env = ConstructionThrows x \/ remote env = StopThrows x ->
        x <> ThrownValue JUndefined -> x <> ThrownValue JNull ->
        exists w',
          disconnect_turn proto' id response args w = (Return (Throws e), w')
          /\ native_calls (effects w')
             = native_calls (effects w) ++ [(n, Session id, response, args)]).
Proof.
  intros Hd Hinst Hpending Hn.
  destruct (customizeNodeAdapterRequests_run proto) as (q & Hq & _ & Hd' & _).
  rewrite Hinst in Hq. injection Hq as <-. rewrite Hd in Hd'.
  pose proof (disconnect_turn_run proto' n id response args w Hd' Hpending)
    as Hrun.
  cbv zeta in Hrun. rewrite Hn in Hrun. cbn [default from_option] in Hrun.
  split.
  - intros [outcome Hout]. unfold stop_settlement in Hout.
    destruct (remote env) eqn:Hr; try discriminate.
    all: eexists _, (report e); split; [exact Hrun|]; cbn [effects].
    all: split; [reflexivity|]; unfold report.
    all: split; [intros name message -> Hmessage;
                 rewrite message_text_Error by exact Hmessage; reflexivity|].
    all: split; [intros s ->; reflexivity|].
    all: split; intros ->; reflexivity.
  - intros x Hremote Hu Hnull.
    destruct (message_text_defined x Hu Hnull) as [text Hx].
    destruct Hremote as [Hr|Hr]; rewrite Hr, Hx in Hrun.
    all: eexists; split; [exact Hrun|]; cbn [effects].
    all: rewrite !native_calls_app; reflexivity.
Qed.

(** *** What is written to the error stream, and when *)

(** X13. With an original disconnect that returns: nothing is written when
    the promise resolves; a rejection is reported after the original
    disconnect was called, by the message of the Error or by the string it
    was rejected with; a synchronous failure is reported likewise before
    the original disconnect is called, and when it was the making of the
    remote extension that failed, [stopMonitoringLogcat] is not called at
    all.  A rejection with undefined or null is not reported: reading its
    message throws a TypeError that nobody catches; and a synchronous
    failure with undefined or null makes the request fail with that
    TypeError, nothing written and the original disconnect not called. *)
Theorem disconnect_diagnostics (proto proto' : Prototype) n id response args
    (w : World) :
  proto !! "disconnectRequest" = Some (Native n) ->
  customizeNodeAdapterRequests proto = Return proto' ->
  pendingStops w = [] ->
  native_outcome env n = None ->
  exists r w' new,
    disconnect_turn proto' id response args w = (Return r, w')
    /\ effects w' = effects w ++ new
    /\ (remote env = StopResolves ->
        r = Return tt
        /\ new = [ AtProjectRootPath (projectRootPath w);
                   StopMonitoringLogcat;
                   NativeCall n (Session id) response args ])
    /\ (forall reason text,
          remote env = StopRejects reason ->
          (exists name, reason = ErrorObject name text /\ text <> "")
          \/ reason = ThrownValue (JStr text) ->
          r = Return tt
          /\ new = [ AtProjectRootPath (projectRootPath w);
                     StopMonitoringLogcat;
                     NativeCall n (Session id) response args;
                     StderrWrite
                       ("WARNING: Couldn't stop monitoring logcat: "
                        +:+ text +:+ LF) ])
    /\ (forall v,
          remote env = StopRejects (ThrownValue v) ->
          v = JUndefined \/ v = JNull ->
          r = Return tt
          /\ new = [ AtProjectRootPath (projectRootPath w);
                     StopMonitoringLogcat;
                     NativeCall n (Session id) response args;
                     UncaughtException
                       (TypeError ("Cannot read property 'message' of "
                                   +:+ ToString v)) ])
    /\ (forall exception text,
          remote env = StopThrows exception ->
          (exists name, exception = ErrorObject name text /\ text <> "")
          \/ exception = ThrownValue (JStr text) ->
          r = Return tt
          /\ new = [ AtProjectRootPath (projectRootPath w);
                     StopMonitoringLogcat;
                     StderrWrite
                       ("WARNING: Couldn't stop monitoring logcat. Sync exception: "
                        +:+ text +:+ LF);
                     NativeCall n (Session id) response args ])
    /\ (forall exception text,
          remote env = ConstructionThrows exception ->
          (exists name, exception = ErrorObject name text /\ text <> "")
          \/ exception = ThrownValue (JStr text) ->
          r = Return tt
          /\ new = [ AtProjectRootPath (projectRootPath w);
                     StderrWrite
                       ("WARNING: Couldn't stop monitoring logcat. Sync exception: "
                        +:+ text +:+ LF);
                     NativeCall n (Session id) response args ])
    /\ (forall v,
          v = JUndefined \/ v = JNull ->
          (remote env = StopThrows (ThrownValue v) ->
           r = Throws (TypeError ("Cannot read property 'message' of "
                                  +:+ ToString v))
           /\ new = [ AtProjectRootPath (projectRootPath w);
                      StopMonitoringLogcat ])
          /\ (remote env = ConstructionThrows (ThrownValue v) ->
              r = Throws (TypeError ("Cannot read property 'message' of "
                                     +:+ ToString v))
              /\ new = [ AtProjectRootPath (projectRootPath w) ])).
Proof.
  intros Hd Hinst Hpending Hn.
  destruct (customizeNodeAdapterRequests_run proto) as (q & Hq & _ & Hd' & _).
  rewrite Hinst in Hq. injection Hq as <-. rewrite Hd in Hd'.
  pose proof (disconnect_turn_run proto' n id response args w Hd' Hpending)
    as Hrun.
  cbv zeta in Hrun. rewrite Hn in Hrun. cbn [default from_option] in Hrun.
  unfold report in Hrun.
  assert (forall t text,
            (exists name, t = ErrorObject name text /\ text <> "")
            \/ t = ThrownValue (JStr text) ->
            message_text t = Return text) as Hreadable.
  { intros t text [(name & -> & Htext) | ->];
      [apply message_text_Error; exact Htext|reflexivity]. }
  destruct (remote env) as [e|e| |e|] eqn:Hr;
    try destruct (message_text e) as [text0|x] eqn:He.
  all: do 3 eexists; split; [exact Hrun|]; cbn [effects].
  all: split; [reflexivity|].
  all: split; [intros H; try discriminate; split; reflexivity|].
  all: split;
    [intros reason text H Hshape; try discriminate; injection H as <-;
     rewrite (Hreadable _ _ Hshape) in He; try discriminate;
     injection He as <-; split; reflexivity|].
  all: split;
    [intros v H Hv; try discriminate; injection H as ->;
     rewrite (message_text_nullish _ Hv) in He; try discriminate;
     injection He as <-; split; reflexivity|].
  all: split;
    [intros exception text H Hshape; try discriminate; injection H as <-;
     rewrite (Hreadable _ _ Hshape) in He; try discriminate;
     injection He as <-; split; reflexivity|].
  all: split;
    [intros exception text H Hshape; try discriminate; injection H as <-;
     rewrite (Hreadable _ _ Hshape) in He; try discriminate;
     injection He as <-; split; reflexivity|].
  all: intros v Hv; split; intros H; try discriminate; injection H as ->;
    rewrite (message_text_nullish _ Hv) in He; try discriminate;
    injection He as <-; split; reflexivity.
Qed.

(** *** More on the project root *)

Lemma isAbsolute_inv (p : string) :
  Path.isAbsolute p = true -> exists rest, p = String "/" rest.
Proof.
  destruct p as [|c rest]; [discriminate|].
  destruct c as [[] [] [] [] [] [] [] []]; try discriminate. eauto.
Qed.

Lemma split_segments_no_slash (s : string) :
  Forall (fun seg => Path.no_slash seg = true) (Path.split s).
Proof.
  induction s as [|c s IH]; [repeat constructor|].
  destruct (Ascii.eqb_spec c "/") as [->|Hc].
  - cbn [Path.split]. constructor; [reflexivity|exact IH].
  - rewrite split_cons by exact Hc.
    assert (Path.no_slash (String c "") = true) as Hone
      by (cbn; apply Ascii.eqb_neq in Hc; rewrite Hc; reflexivity).
    destruct IH as [|seg segs Hseg Hsegs]; constructor; try constructor; auto.
    cbn. apply Ascii.eqb_neq in Hc. rewrite Hc. exact Hseg.
Qed.

(** Below the root the normalisation loop keeps names only. *)
Lemma normalizeArray_keeps_names (parts res : list string) :
  Forall (fun s => Path.no_slash s = true) parts ->
  Forall (fun s => Path.is_name s = true) res ->
  Forall (fun s => Path.is_name s = true) (Path.normalizeArray parts false res).
Proof.
  intros Hparts. revert res.
  induction Hparts as [|part parts Hpart Hparts IH]; intros res Hres;
    cbn [Path.normalizeArray].
  - apply Forall_rev. exact Hres.
  - destruct (String.eqb part "") eqn:Hempty; [apply IH; exact Hres|].
    destruct (String.eqb part ".") eqn:Hdot; [apply IH; exact Hres|].
    cbn [orb].
    destruct (String.eqb part "..") eqn:Hdotdot.
    + destruct res as [|top below]; [apply IH; constructor|].
      destruct (String.eqb top ".."); apply IH; [exact Hres|].
      apply Forall_cons_1 in Hres as [_ Hbelow]. exact Hbelow.
    + apply IH. constructor; [|exact Hres].
      unfold Path.is_name. rewrite Hpart, Hempty, Hdot, Hdotdot. reflexivity.
Qed.

Lemma list_last_two {A} (l : list A) :
  l = [] \/ (exists a, l = [a]) \/ exists segs a b, l = segs ++ [a; b].
Proof.
  destruct l as [|x l] using rev_ind; [left; reflexivity|right].
  destruct l as [|y l] using rev_ind; [left; eauto|right].
  exists l, y, x. rewrite <- app_assoc. reflexivity.
Qed.

(** X14. An absolute program fixes the project root, whether [listen] then
    accepts the port or not: the working directory has no part in it, and
    the root is a slash followed by names, with no empty, ["."] or [".."]
    segment left. *)
Theorem launch_project_root_of_absolute_program k this request
    (o : gmap string JsVal) p w :
  o !! "program" = Some (JStr p) ->
  Path.isAbsolute p = true ->
  exists names vec w1 w0,
    wrapped_launchRequest k this request (JObj o) w
    = (if legal_port (resolved_port o)
       then k this request (JObj (<["args" := JArr vec]> o)) w1
       else (Throws (RangeError (bad_port_message env (resolved_port o))), w0))
    /\ projectRootPath w1 = Some ("/" +:+ Path.join names)
    /\ projectRootPath w0 = Some ("/" +:+ Path.join names)
    /\ Forall (fun s => Path.is_name s = true) names
    /\ forall cwd', Path.resolve cwd' [p; "../.."] = "/" +:+ Path.join names.
Proof.
  intros Hp Habs. apply isAbsolute_inv in Habs as [rest ->].
  exists (Path.normalizeArray
            (Path.split (String "/" rest +:+ "/" +:+ "../.." +:+ "/" +:+ ""))
            false []),
    (sanitize o), (launched this o (String "/" rest) w),
    (prepared (String "/" rest) w).
  split; [apply wrapped_launchRequest_run; exact Hp|].
  do 2 (split; [reflexivity|]).
  split; [|reflexivity].
  apply normalizeArray_keeps_names; [apply split_segments_no_slash|constructor].
Qed.

(** X15. The project root is the program's path without its last two names, and
    the root directory when there are no two names to drop: the resolution
    never climbs above [/]. *)
Theorem launch_project_root_drops_two_names k this request
    (o : gmap string JsVal) (names : list string) w :
  o !! "program" = Some (JStr ("/" +:+ Path.join names)) ->
  Forall (fun s => Path.is_name s = true) names ->
  exists vec w1 w0,
    wrapped_launchRequest k this request (JObj o) w
    = (if legal_port (resolved_port o)
       then k this request (JObj (<["args" := JArr vec]> o)) w1
       else (Throws (RangeError (bad_port_message env (resolved_port o))), w0))
    /\ projectRootPath w1
       = Some ("/" +:+ Path.join (take (length names - 2) names))
    /\ projectRootPath w0 = projectRootPath w1
    /\ (length names <= 2 -> projectRootPath w1 = Some "/")%nat.
Proof.
  intros Hp Hnames.
  exists (sanitize o), (launched this o ("/" +:+ Path.join names) w),
    (prepared ("/" +:+ Path.join names) w).
  split; [apply wrapped_launchRequest_run; exact Hp|].
  assert (Path.resolve (cwd env) ["/" +:+ Path.join names; "../.."]
          = "/" +:+ Path.join (take (length names - 2) names)) as Hroot.
  { destruct (list_last_two names) as [->|[[a ->]|(segs & a & b & ->)]].
    - reflexivity.
    - apply Forall_cons_1 in Hnames as [Ha _].
      unfold Path.resolve.
      change (Path.prepend_until_absolute
                (rev ["/" +:+ Path.join [a]; "../.."] ++ [cwd env]) "")
        with (String "/" (Path.join [a] +:+ String "/" "../../"), true).
      cbv beta iota. cbn [Path.split negb].
      rewrite split_join_append
        by (try discriminate; repeat constructor; apply is_name_no_slash, Ha).
      change (Path.split "../../") with [".."; ".."; ""].
      unfold Path.is_name in Ha.
      rewrite !andb_true_iff, !negb_true_iff in Ha.
      destruct Ha as [[[_ Hempty] Hdot] Hdotdot].
      cbn [app Path.normalizeArray String.eqb Ascii.eqb Bool.eqb orb].
      rewrite Hempty, Hdot, Hdotdot.
      cbn [Path.normalizeArray String.eqb Ascii.eqb Bool.eqb orb].
      reflexivity.
    - rewrite resolve_grandparent by exact Hnames.
      rewrite take_app_length' by (rewrite length_app; cbn; lia).
      reflexivity. }
  split; [cbn [launched projectRootPath]; rewrite Hroot; reflexivity|].
  split; [reflexivity|].
  intros Hshort. cbn [launched projectRootPath]. rewrite Hroot.
  replace (length names - 2)%nat with 0%nat by lia. reflexivity.
Qed.

Lemma isAbsolute_cons (c : ascii) (r : string) :
  c <> "/"%char -> Path.isAbsolute (String c r) = false.
Proof.
  intros Hc. destruct c as [[] [] [] [] [] [] [] []]; try reflexivity; congruence.
Qed.

(** What [join] makes of names starts with the first character of the first
    name, which is not a separator. *)
Lemma join_names_head (names : list string) :
  names <> [] ->
  Forall (fun s => Path.is_name s = true) names ->
  exists c r, Path.join names = String c r /\ c <> "/"%char.
Proof.
  intros Hne Hnames. destruct Hnames as [|n rest Hn Hrest]; [congruence|].
  unfold Path.is_name in Hn. rewrite !andb_true_iff, !negb_true_iff in Hn.
  destruct Hn as [[[Hslash Hempty] _] _].
  destruct n as [|c r0]; [discriminate|].
  cbn [Path.no_slash] in Hslash. rewrite andb_true_iff, negb_true_iff in Hslash.
  destruct Hslash as [Hc _]. apply Ascii.eqb_neq in Hc.
  destruct rest as [|n' rest]; [exists c, r0; auto|].
  exists c, (r0 +:+ "/" +:+ Path.join (n' :: rest)). auto.
Qed.

(** Two [".."] after names take the last two names away. *)
Lemma normalizeArray_pop_two (pre : list string) (a b : string) :
  Forall (fun s => Path.is_name s = true) (pre ++ [a; b]) ->
  Path.normalizeArray ((pre ++ [a; b]) ++ [".."; ".."; ""]) false [] = pre.
Proof.
  intros Hnames. rewrite normalizeArray_names by exact Hnames.
  rewrite rev_app_distr, app_nil_r. cbn [rev app].
  apply Forall_app in Hnames as [_ Hab].
  apply Forall_cons_1 in Hab as [Ha Hb'].
  apply Forall_cons_1 in Hb' as [Hb _].
  unfold Path.is_name in Ha, Hb.
  rewrite !andb_true_iff, !negb_true_iff in Ha, Hb.
  destruct Ha as [_ Ha], Hb as [_ Hb].
  cbn [Path.normalizeArray String.eqb Ascii.eqb Bool.eqb orb].
  rewrite Hb. cbn [Path.normalizeArray String.eqb Ascii.eqb Bool.eqb orb].
  rewrite Ha. cbn [Path.normalizeArray String.eqb Ascii.eqb Bool.eqb orb].
  apply rev_involutive.
Qed.

(** X16. A relative program is resolved against the working directory of the
    adapter process: the project root is that directory followed by the
    program's names but the last two. *)
Theorem launch_project_root_of_relative_program k this request
    (o : gmap string JsVal) (cs segs : list string) (a b : string) w :
  cwd env = "/" +:+ Path.join cs ->
  Forall (fun s => Path.is_name s = true) cs ->
  o !! "program" = Some (JStr (Path.join (segs ++ [a; b]))) ->
  Forall (fun s => Path.is_name s = true) (segs ++ [a; b]) ->
  exists vec w1 w0,
    wrapped_launchRequest k this request (JObj o) w
    = (if legal_port (resolved_port o)
       then k this request (JObj (<["args" := JArr vec]> o)) w1
       else (Throws (RangeError (bad_port_message env (resolved_port o))), w0))
    /\ projectRootPath w0 = projectRootPath w1
    /\ projectRootPath w1 = Some ("/" +:+ Path.join (cs ++ segs)).
Proof.
  intros Hcwd Hcs Hp Hnames.
  exists (sanitize o), (launched this o (Path.join (segs ++ [a; b])) w),
    (prepared (Path.join (segs ++ [a; b])) w).
  split; [apply wrapped_launchRequest_run; exact Hp|].
  split; [reflexivity|].
  cbn [launched projectRootPath]. f_equal. rewrite Hcwd.
  destruct (join_names_head (segs ++ [a; b])) as (c & r & Hjoin & Hc);
    [destruct segs; discriminate|exact Hnames|].
  unfold Path.resolve. cbn [rev app].
  assert (Path.prepend_until_absolute
            ["../.."; Path.join (segs ++ [a; b]); "/" +:+ Path.join cs] ""
          = (String "/"
               (Path.join cs
                +:+ String "/" (Path.join (segs ++ [a; b]) +:+ String "/" "../../")),
             true)) as ->.
  { rewrite Hjoin. cbn [Path.prepend_until_absolute String.eqb].
    change (Path.isAbsolute "../..") with false. cbv beta iota.
    rewrite isAbsolute_cons by exact Hc. reflexivity. }
  cbv beta iota. cbn [Path.split negb].
  assert (Forall (fun s => Path.no_slash s = true) (segs ++ [a; b])) as Hslash
    by (eapply Forall_impl; [exact Hnames|exact is_name_no_slash]).
  assert (Forall (fun s => Path.is_name s = true) ((cs ++ segs) ++ [a; b]))
    as Hall by (rewrite <- app_assoc; apply Forall_app; auto).
  destruct cs as [|c0 cs].
  - change (Path.join [] +:+ String "/" ?x) with (String "/" x).
    cbn [Path.split].
    rewrite split_join_append by (try exact Hslash; destruct segs; discriminate).
    change (Path.split "../../") with [".."; ".."; ""].
    cbn [Path.normalizeArray String.eqb orb].
    rewrite (normalizeArray_pop_two segs a b Hnames). reflexivity.
  - rewrite split_join_append
      by (discriminate
          || (eapply Forall_impl; [exact Hcs|exact is_name_no_slash])).
    rewrite split_join_append by (try exact Hslash; destruct segs; discriminate).
    change (Path.split "../../") with [".."; ".."; ""].
    cbn [Path.normalizeArray String.eqb orb].
    replace ((c0 :: cs) ++ (segs ++ [a; b]) ++ [".."; ".."; ""])
      with ((((c0 :: cs) ++ segs) ++ [a; b]) ++ [".."; ".."; ""])
      by (rewrite <- !app_assoc; reflexivity).
    rewrite normalizeArray_pop_two by exact Hall. reflexivity.
Qed.

(** *** Sanitizing what was sanitized *)

(** X17. The vector holds all it is made from: when [listen] accepts the
    port of a launch, a launch whose five forwarded arguments are the slots
    of its vector (the fifth argument undefined when there is no fifth
    slot) asks for the same port and is given the same vector. *)
Theorem launch_sanitization_is_idempotent k this request
    (o o' : gmap string JsVal) p p' w :
  o !! "program" = Some (JStr p) ->
  o' !! "program" = Some (JStr p') ->
  1 <= resolved_port o <= 65535 ->
  field o' "platform" = default JUndefined (sanitize o !! 0%nat) ->
  field o' "internalDebuggerPort" = default JUndefined (sanitize o !! 1%nat) ->
  field o' "iosRelativeProjectPath" = default JUndefined (sanitize o !! 2%nat) ->
  field o' "target" = default JUndefined (sanitize o !! 3%nat) ->
  field o' "logCatArguments" = default JUndefined (sanitize o !! 4%nat) ->
  wrapped_launchRequest k this request (JObj o) w
  = k this request (JObj (<["args" := JArr (sanitize o)]> o))
      (launched this o p w)
  /\ wrapped_launchRequest k this request (JObj o') w
     = k this request (JObj (<["args" := JArr (sanitize o)]> o'))
         (launched this o' p' w)
  /\ field o' "internalDebuggerPort" = JStr (decimal (resolved_port o))
  /\ resolved_port o' = resolved_port o.
Proof.
  intros Hp Hp' Hrange Hplatform Hport Hrel Htarget Hlog.
  assert (legal_port (resolved_port o) = true) as Hlegal
    by (apply legal_port_spec; lia).
  rewrite (sanitize_port_slot o Hlegal) in Hport.
  cbn [default from_option] in Hport. unfold id in Hport.
  assert (resolved_port o' = resolved_port o) as Hsame.
  { unfold resolved_port at 1. rewrite Hport.
    unfold parseInt10_or. rewrite parseInt10_decimal.
    destruct (Z.eqb_spec (resolved_port o) 0); [lia|reflexivity]. }
  split; [apply wrapped_launchRequest_legal; assumption|].
  split; [|split; [exact Hport|exact Hsame]].
  rewrite wrapped_launchRequest_legal with (p := p')
    by (try assumption; rewrite Hsame; exact Hlegal).
  do 4 f_equal.
  change (sanitize o !! 0%nat) with (Some (field o "platform")) in Hplatform.
  change (sanitize o !! 2%nat)
    with (Some match field o "iosRelativeProjectPath" with
               | JUndefined | JNull => JStr DEFAULT_IOS_PROJECT_RELATIVE_PATH
               | provided => provided
               end) in Hrel.
  change (sanitize o !! 3%nat)
    with (Some (if truthy (field o "target") then field o "target"
                else JStr "simulator")) in Htarget.
  change (sanitize o !! 4%nat) with (sanitize_extra o !! 0%nat) in Hlog.
  cbn [default from_option] in Hplatform, Hrel, Htarget.
  unfold id in Hplatform, Hrel, Htarget.
  unfold sanitize. f_equal.
  - unfold sanitize_fixed. rewrite Hsame, Hplatform, Hrel, Htarget.
    do 2 f_equal. f_equal.
    + destruct (field o "iosRelativeProjectPath"); reflexivity.
    + f_equal. destruct (truthy (field o "target")) eqn:Htruthy;
        rewrite ?Htruthy; reflexivity.
  - unfold sanitize_extra at 1. rewrite Hlog. unfold sanitize_extra.
    destruct (field o "logCatArguments"); reflexivity.
Qed.

End Wrapper.

(** ** The properties at the sample inputs *)




Lemma launch_defaulting_asymmetry_full_args :
  full_args !! "program" = Some (JStr "/work/app/.vscode/launchReactNative.js")
  /\ legal_port (resolved_port full_args) = true
  /\ exists vec,
       wrapped_launchRequest quiet_env "app" "1.0" "key" "ios"
         (call_native quiet_env "launchRequest") (Session 1) JNull
         (JObj full_args) initial_world
       = call_native quiet_env "launchRequest" (Session 1) JNull
           (JObj (<["args" := JArr vec]> full_args))
           (launched quiet_env "app" "1.0" "key" (Session 1) full_args
              "/work/app/.vscode/launchReactNative.js" initial_world)
       /\ vec !! 2%nat = Some (JStr "")
       /\ vec !! 3%nat = Some (JStr "simulator").
Proof.
  split; [reflexivity|]. split; [reflexivity|].
  destruct (launch_defaulting_asymmetry quiet_env "app" "1.0" "key" "ios"
              (call_native quiet_env "launchRequest") (Session 1) JNull
              full_args "/work/app/.vscode/launchReactNative.js"
              initial_world eq_refl eq_refl)
    as (vec & Hrun & Htarget & _ & _ & _ & Hrel & _).
  exists vec. split; [exact Hrun|].
  split; [apply Hrel|apply Htarget]; reflexivity.
Defined.

Lemma reinitializeServer_routing_refresh :
  server_this (mkServer (Session 7) 9090) = Session 7
  /\ exists w',
       requestListener (Session 7) "/refreshBreakpoints" initial_world
       = (Return tt, w')
       /\ effects w' = [SendEvent 7 InitializedEvent; HttpEnd 200].
Proof.
  split; [reflexivity|].
  destruct (reinitializeServer_routing (mkServer (Session 7) 9090) 7
              "/refreshBreakpoints" initial_world eq_refl)
    as (w' & Hrun & _ & _ & _ & _ & _ & Hrefresh & _).
  exists w'. split; [exact Hrun|]. apply Hrefresh. reflexivity.
Defined.

(** With a remote extension whose making throws undefined, the original
    disconnect is not called. *)
Lemma disconnect_calls_original_once_undefined :
  customizeNodeAdapterRequests node_debug_prototype = Return customized_prototype
  /\ remote throws_undefined_env = ConstructionThrows (ThrownValue JUndefined)
  /\ exists w' new,
       disconnect_turn throws_undefined_env "app" "1.0" "key" "ios"
         customized_prototype 7 (JStr "response") JNull initial_world
       = (Return (Throws (TypeError "Cannot read property 'message' of undefined")),
          w')
       /\ effects w' = new
       /\ native_calls new = []
       /\ stderr_writes new = [].
Proof.
  split; [reflexivity|]. split; [reflexivity|].
  destruct (disconnect_calls_original_once throws_undefined_env "app" "1.0" "key"
              "ios" node_debug_prototype customized_prototype
              "disconnectRequest" 7%nat (JStr "response") JNull initial_world)
    as (r & w' & new & Hrun & Heff & _ & _ & _ & Hnullish);
    [reflexivity|reflexivity|reflexivity|discriminate|].
  destruct (Hnullish JUndefined (or_introl eq_refl) (or_introl eq_refl))
    as (Hcalls & Hwrites & ->).
  exists w', new. auto.
Defined.

Lemma launch_survives_bind_failure_scenario :
  listen_outcome hostile_env (listening initial_world)
    (resolved_port scenario_args)
  = BindFails (mkError "Error" "listen EADDRINUSE :::9090")
  /\ exists w',
       launch_turn hostile_env "app" "1.0" "key" "ios" customized_prototype 7
         JNull (JObj scenario_args) initial_world
       = (Return (Return tt), w')
       /\ native_calls (effects w')
          = [("launchRequest", Session 7, JNull,
              JObj (<["args" := JArr [JStr "ios"; JStr "9090"; JStr "ios";
                                      JStr "simulator"]]> scenario_args))].
Proof.
  split; [reflexivity|].
  destruct (launch_survives_bind_failure hostile_env "app" "1.0" "key" "ios"
              node_debug_prototype customized_prototype "launchRequest" 7
              JNull scenario_args "/proj/ios/App.xcodeproj/.."
              (mkError "Error" "listen EADDRINUSE :::9090") initial_world)
    as (r & w' & Hrun & Hr & Heff & _);
    [reflexivity|reflexivity|reflexivity|reflexivity|].
  exists w'. rewrite Hrun, Hr, Heff. split; reflexivity.
Defined.

Lemma launch_project_root_scenario :
  scenario_args !! "program" = Some (JStr "/proj/ios/App.xcodeproj/..")
  /\ exists w1,
       wrapped_launchRequest quiet_env "app" "1.0" "key" "ios"
         (call_native quiet_env "launchRequest") (Session 1) JNull
         (JObj scenario_args) initial_world
       = call_native quiet_env "launchRequest" (Session 1) JNull
           (JObj (<["args" := JArr [JStr "ios"; JStr "9090"; JStr "ios";
                                    JStr "simulator"]]> scenario_args)) w1
       /\ projectRootPath w1 = Some "/".
Proof.
  split; [reflexivity|].
  destruct (launch_project_root quiet_env "app" "1.0" "key" "ios"
              (call_native quiet_env "launchRequest") (Session 1) JNull
              scenario_args "/proj/ios/App.xcodeproj/.." initial_world eq_refl)
    as (vec & w1 & w0 & Hrun & _ & _ & _ & Hvec & _ & Hroot & _).
  exists w1.
  destruct (Hvec eq_refl eq_refl eq_refl eq_refl eq_refl) as [_ <-].
  split; [exact Hrun|exact (proj1 (Hroot eq_refl))].
Defined.

(** ** Where the specification and the code part *)

(** C3 as stated fails: after installation on node-debug's prototype the
    attach slot still holds node-debug's own method. *)
Lemma attach_is_not_replaced :
  ~ (forall proto',
       customizeNodeAdapterRequests node_debug_prototype = Return proto' ->
       is_wrapped (proto' !! "launchRequest") = true
       /\ is_wrapped (proto' !! "attachRequest") = true
       /\ is_wrapped (proto' !! "disconnectRequest") = true).
Proof.
  intros H. destruct (H customized_prototype eq_refl) as (_ & Hattach & _).
  vm_compute in Hattach. discriminate.
Qed.


(** C7 as stated fails: in the scenario the project root is [/], not
    [/proj]. *)
Lemma scenario_project_root_is_not_proj :
  exists w',
    wrapped_launchRequest quiet_env "app" "1.0" "key" "ios"
      (call_native quiet_env "launchRequest") (Session 1) JNull
      (JObj scenario_args) initial_world
    = (Return tt, w')
    /\ projectRootPath w' = Some "/"
    /\ projectRootPath w' <> Some "/proj".
Proof.
  eexists. split.
  - rewrite (wrapped_launchRequest_run quiet_env "app" "1.0" "key" "ios" _ _ _
               scenario_args "/proj/ios/App.xcodeproj/.." _ eq_refl).
    reflexivity.
  - split; [reflexivity|discriminate].
Qed.

(** C9 as stated fails: on a session type with no operations at all the
    installation returns, with both closures around a missing original. *)
Lemma installation_on_empty_prototype_returns :
  (forall e, customizeNodeAdapterRequests ∅ <> Throws e)
  /\ exists proto',
       customizeNodeAdapterRequests ∅ = Return proto'
       /\ proto' !! "launchRequest" = Some (LaunchWrapper None)
       /\ proto' !! "disconnectRequest" = Some (DisconnectWrapper None).
Proof.
  split; [discriminate|].
  eexists. split; [reflexivity|]. split; reflexivity.
Qed.

(** ** The further properties at the sample inputs *)

Lemma launch_without_program_throws_null :
  (forall p, get JNull "program" <> Some (JStr p))
  /\ exists message,
       wrapped_launchRequest quiet_env "app" "1.0" "key" "ios"
         (call_native quiet_env "launchRequest") (Session 1) JNull JNull
         initial_world
       = (Throws (TypeError message), initial_world).
Proof.
  split; [discriminate|].
  apply (launch_without_program_throws quiet_env "app" "1.0" "key" "ios").
  discriminate.
Defined.

Lemma launch_overwrites_incoming_args_scenario :
  scenario_args !! "program" = Some (JStr "/proj/ios/App.xcodeproj/..")
  /\ exists (o' : gmap string JsVal) w1,
       wrapped_launchRequest quiet_env "app" "1.0" "key" "ios"
         (call_native quiet_env "launchRequest") (Session 1) JNull
         (JObj (<["args" := JArr [JStr "--inspect"]]> scenario_args))
         initial_world
       = call_native quiet_env "launchRequest" (Session 1) JNull (JObj o') w1
       /\ o' !! "args"
          = Some (JArr [JStr "ios"; JStr "9090"; JStr "ios"; JStr "simulator"]).
Proof.
  split; [reflexivity|].
  destruct (launch_overwrites_incoming_args quiet_env "app" "1.0" "key" "ios"
              (call_native quiet_env "launchRequest") (Session 1) JNull
              scenario_args "/proj/ios/App.xcodeproj/.." (JArr [JStr "--inspect"])
              initial_world eq_refl)
    as (o' & w1 & w0 & _ & Hrun & Hargs & _).
  exists o', w1. split; [exact Hrun|exact Hargs].
Defined.

Lemma launch_port_round_trip_scenario :
  scenario_args !! "program" = Some (JStr "/proj/ios/App.xcodeproj/..")
  /\ exists port,
       (1 <= port <= 65535 ->
        exists slot vec w1,
          wrapped_launchRequest quiet_env "app" "1.0" "key" "ios"
            (call_native quiet_env "launchRequest") (Session 1) JNull
            (JObj scenario_args) initial_world
          = call_native quiet_env "launchRequest" (Session 1) JNull
              (JObj (<["args" := JArr vec]> scenario_args)) w1
          /\ servers w1 = [mkServer (Session 1) port]
          /\ vec !! 1%nat = Some (JStr slot)
          /\ parseInt10 (JStr slot) = Some port).
Proof.
  split; [reflexivity|].
  destruct (launch_port_round_trip quiet_env "app" "1.0" "key" "ios"
              (call_native quiet_env "launchRequest") (Session 1) JNull
              scenario_args "/proj/ios/App.xcodeproj/.." initial_world eq_refl)
    as (port & _ & Haccepted & _).
  exists port. intros Hrange.
  destruct (Haccepted Hrange) as (slot & vec & w1 & Hrun & Hsrv & Hslot & Hparse & _).
  exists slot, vec, w1. auto.
Defined.

(** A port below zero: the launch fails in [listen]. *)
Lemma launch_port_is_not_validated_negative :
  negative_port_args !! "program"
  = Some (JStr "/work/app/.vscode/launchReactNative.js")
  /\ exists message,
       wrapped_launchRequest quiet_env "app" "1.0" "key" "ios"
         (call_native quiet_env "launchRequest") (Session 1) JNull
         (JObj negative_port_args) initial_world
       = (Throws (RangeError message),
          mkWorld (Some "/work/app") ∅ [] [] [] []
            [ TelemetryReassign "app" "1.0" "key" "/work/app";
              HttpCreateServer ]).
Proof.
  split; [reflexivity|].
  destruct (launch_port_is_not_validated quiet_env "app" "1.0" "key" "ios"
              (call_native quiet_env "launchRequest") (Session 1) JNull
              negative_port_args "/work/app/.vscode/launchReactNative.js"
              initial_world eq_refl)
    as (Hnum & _).
  eexists.
  apply (Hnum (safe (-1))); [left; vm_compute; reflexivity|reflexivity].
Defined.

Lemma disconnect_uses_last_launched_root_sample :
  customizeNodeAdapterRequests node_debug_prototype = Return customized_prototype
  /\ exists r w',
       (launch_turn quiet_env "app" "1.0" "key" "ios" customized_prototype 1
          JNull (JObj full_args) ;;
        launch_turn quiet_env "app" "1.0" "key" "ios" customized_prototype 2
          JNull (JObj shallow_args) ;;
        disconnect_turn quiet_env "app" "1.0" "key" "ios" customized_prototype 1
          JNull JNull) initial_world
       = (Return r, w')
       /\ remote_roots (effects w') = [Some "/"].
Proof.
  split; [reflexivity|].
  destruct (disconnect_uses_last_launched_root quiet_env "app" "1.0" "key" "ios"
              node_debug_prototype customized_prototype "launchRequest"
              "disconnectRequest" 1%nat 2%nat JNull JNull full_args shallow_args
              "/work/app/.vscode/launchReactNative.js" "/app" JNull JNull
              initial_world eq_refl eq_refl eq_refl eq_refl eq_refl eq_refl)
    as (r & w' & new & Hrun & Heff & Hroots).
  exists r, w'. split; [exact Hrun|]. rewrite Heff. exact Hroots.
Defined.

Lemma disconnect_before_launch_sample :
  projectRootPath initial_world = None
  /\ exists r w',
       disconnect_turn quiet_env "app" "1.0" "key" "ios" customized_prototype 1
         JNull JNull initial_world
       = (Return r, w')
       /\ remote_roots (effects w') = [None].
Proof.
  split; [reflexivity|].
  destruct (disconnect_before_launch quiet_env "app" "1.0" "key" "ios"
              node_debug_prototype customized_prototype "disconnectRequest" 1%nat
              JNull JNull initial_world eq_refl eq_refl eq_refl eq_refl)
    as (r & w' & new & Hrun & Heff & Hroots & _).
  exists r, w'. split; [exact Hrun|]. rewrite Heff. exact Hroots.
Defined.

Lemma disconnect_keeps_the_server_sample :
  pendingStops initial_world = []
  /\ exists r w',
       (launch_turn hostile_env "app" "1.0" "key" "ios" customized_prototype 1
          JNull (JObj scenario_args) ;;
        disconnect_turn hostile_env "app" "1.0" "key" "ios" customized_prototype
          1 JNull JNull ;;
        launch_turn hostile_env "app" "1.0" "key" "ios" customized_prototype 1
          JNull (JObj scenario_args)) initial_world
       = (Return r, w')
       /\ servers w' = [mkServer (Session 1) 9090; mkServer (Session 1) 9090].
Proof.
  split; [reflexivity|].
  destruct (disconnect_keeps_the_server hostile_env "app" "1.0" "key" "ios"
              node_debug_prototype customized_prototype "launchRequest"
              "disconnectRequest" 1%nat JNull scenario_args
              "/proj/ios/App.xcodeproj/.." JNull JNull initial_world
              eq_refl eq_refl eq_refl eq_refl eq_refl)
    as (r & w' & Hrun & Hsrv).
  exists r, w'. split; [exact Hrun|exact Hsrv].
Defined.

Lemma relaunch_cannot_bind_scenario :
  listen_outcome quiet_env (listening initial_world)
    (resolved_port scenario_args) = Bound
  /\ exists r w' before err,
       (launch_turn quiet_env "app" "1.0" "key" "ios" customized_prototype 1
          JNull (JObj scenario_args) ;;
        disconnect_turn quiet_env "app" "1.0" "key" "ios" customized_prototype
          1 JNull JNull ;;
        launch_turn quiet_env "app" "1.0" "key" "ios" customized_prototype 1
          JNull (JObj scenario_args)) initial_world
       = (Return r, w')
       /\ listening w' = [9090]
       /\ effects w'
          = before ++
            [ NativeCall "launchRequest" (Session 1) JNull
                (JObj (<["args" := JArr (sanitize "ios" scenario_args)]>
                         scenario_args));
              TelemetrySimpleEvent "reinitializeServerError";
              SendEvent 1
                (OutputEvent
                   ("Error in debug adapter server: " +:+ Error_toString err)
                   (Some "stderr"));
              SendEvent 1
                (OutputEvent
                   "Breakpoints may not update. Consider restarting and specifying a different 'internalDebuggerPort' in launch.json"
                   None) ].
Proof.
  split; [reflexivity|].
  exact (relaunch_cannot_bind quiet_env "app" "1.0" "key" "ios"
           node_debug_prototype customized_prototype "launchRequest"
           "disconnectRequest" 1%nat JNull scenario_args
           "/proj/ios/App.xcodeproj/.." JNull JNull initial_world
           eq_refl eq_refl eq_refl eq_refl eq_refl eq_refl).
Defined.

Lemma second_installation_doubles_launch_sample :
  customizeNodeAdapterRequests customized_prototype
  = Return twice_customized_prototype
  /\ exists w2,
       dispatch quiet_env "app" "1.0" "key" "ios" twice_customized_prototype
         "launchRequest" 1 JNull (JObj scenario_args) initial_world
       = call_native quiet_env "launchRequest" (Session 1) JNull
           (JObj (<["args" := JArr (sanitize "ios" scenario_args)]> scenario_args))
           w2
       /\ servers w2 = [mkServer (Session 1) 9090; mkServer (Session 1) 9090].
Proof.
  split; [reflexivity|].
  destruct (second_installation_doubles_launch quiet_env "app" "1.0" "key" "ios"
              node_debug_prototype customized_prototype
              twice_customized_prototype "launchRequest" 1%nat JNull
              scenario_args "/proj/ios/App.xcodeproj/.." initial_world
              eq_refl eq_refl eq_refl eq_refl)
    as (w2 & w0 & Hrun & Hsrv & _).
  exists w2. split; [exact Hrun|exact Hsrv].
Defined.

Lemma second_installation_doubles_disconnect_sample :
  customizeNodeAdapterRequests customized_prototype
  = Return twice_customized_prototype
  /\ remote hostile_env = StopRejects (ErrorObject "Error" "ECONNRESET")
  /\ exists w',
       disconnect_then hostile_env "app" "1.0" "key" "ios"
         [StopSettles 0; StopSettles 0; DoneReaction 0; DoneReaction 0]
         twice_customized_prototype 1 JNull JNull initial_world
       = (Return (Return tt), w')
       /\ remote_roots (effects w') = [None; None]
       /\ native_calls (effects w')
          = [("disconnectRequest", Session 1, JNull, JNull)].
Proof.
  split; [reflexivity|]. split; [reflexivity|].
  destruct (second_installation_doubles_disconnect hostile_env "app" "1.0" "key"
              "ios" node_debug_prototype customized_prototype
              twice_customized_prototype "disconnectRequest" 1%nat JNull JNull
              initial_world)
    as (_ & _ & Hall);
    [reflexivity|reflexivity|reflexivity|reflexivity|reflexivity
    |right; eexists; reflexivity|].
  destruct (Hall [StopSettles 0; StopSettles 0; DoneReaction 0; DoneReaction 0])
    as (w' & new & Hrun & Heff & Hroots & Hcalls & _);
    [right; left; reflexivity|].
  exists w'. split; [exact Hrun|]. rewrite Heff. split; assumption.
Defined.

Lemma disconnect_error_propagation_sample :
  native_outcome failing_adapter_env "disconnectRequest"
  = Some (ErrorObject "Error" "adapter is gone")
  /\ exists w',
       disconnect_turn failing_adapter_env "app" "1.0" "key" "ios"
         customized_prototype 1 JNull JNull initial_world
       = (Return (Return tt), w')
       /\ effects w'
          = [ AtProjectRootPath None;
              StopMonitoringLogcat;
              NativeCall "disconnectRequest" (Session 1) JNull JNull;
              StderrWrite
                ("WARNING: Couldn't stop monitoring logcat: "
                 +:+ "adapter is gone" +:+ LF) ].
Proof.
  split; [reflexivity|].
  destruct (disconnect_error_propagation failing_adapter_env "app" "1.0" "key"
              "ios" node_debug_prototype customized_prototype
              "disconnectRequest" 1%nat JNull JNull
              (ErrorObject "Error" "adapter is gone") initial_world
              eq_refl eq_refl eq_refl eq_refl)
    as [Hsettled _].
  destruct Hsettled as (w' & tail & Hrun & Heff & Htail & _);
    [eexists; reflexivity|].
  exists w'. split; [exact Hrun|]. rewrite Heff.
  rewrite (Htail "Error" "adapter is gone" eq_refl) by discriminate.
  reflexivity.
Defined.

Lemma disconnect_diagnostics_rejected_undefined :
  remote rejects_undefined_env = StopRejects (ThrownValue JUndefined)
  /\ exists w',
       disconnect_turn rejects_undefined_env "app" "1.0" "key" "ios"
         customized_prototype 1 JNull JNull initial_world
       = (Return (Return tt), w')
       /\ effects w'
          = [ AtProjectRootPath None;
              StopMonitoringLogcat;
              NativeCall "disconnectRequest" (Session 1) JNull JNull;
              UncaughtException
                (TypeError "Cannot read property 'message' of undefined") ].
Proof.
  split; [reflexivity|].
  destruct (disconnect_diagnostics rejects_undefined_env "app" "1.0" "key" "ios"
              node_debug_prototype customized_prototype "disconnectRequest"
              1%nat JNull JNull initial_world)
    as (r & w' & new & Hrun & Heff & _ & _ & Hnothing & _);
    [reflexivity|reflexivity|reflexivity|reflexivity|].
  destruct (Hnothing JUndefined eq_refl (or_introl eq_refl)) as [-> ->].
  exists w'. split; [exact Hrun|exact Heff].
Defined.

Lemma launch_project_root_of_absolute_program_scenario :
  Path.isAbsolute "/proj/ios/App.xcodeproj/.." = true
  /\ exists names,
       Forall (fun s => Path.is_name s = true) names
       /\ Path.resolve "/home/user" ["/proj/ios/App.xcodeproj/.."; "../.."]
          = "/" +:+ Path.join names
       /\ Path.resolve "/" ["/proj/ios/App.xcodeproj/.."; "../.."]
          = "/" +:+ Path.join names.
Proof.
  split; [reflexivity|].
  destruct (launch_project_root_of_absolute_program quiet_env "app" "1.0" "key"
              "ios" (call_native quiet_env "launchRequest") (Session 1) JNull
              scenario_args "/proj/ios/App.xcodeproj/.." initial_world
              eq_refl eq_refl)
    as (names & vec & w1 & w0 & _ & _ & _ & Hnames & Hany).
  exists names. split; [exact Hnames|]. split; apply Hany.
Defined.

Lemma launch_project_root_drops_two_names_shallow :
  shallow_args !! "program" = Some (JStr ("/" +:+ Path.join ["app"]))
  /\ exists vec w1,
       wrapped_launchRequest quiet_env "app" "1.0" "key" "ios"
         (call_native quiet_env "launchRequest") (Session 1) JNull
         (JObj shallow_args) initial_world
       = call_native quiet_env "launchRequest" (Session 1) JNull
           (JObj (<["args" := JArr vec]> shallow_args)) w1
       /\ projectRootPath w1 = Some "/".
Proof.
  split; [reflexivity|].
  destruct (launch_project_root_drops_two_names quiet_env "app" "1.0" "key" "ios"
              (call_native quiet_env "launchRequest") (Session 1) JNull
              shallow_args ["app"] initial_world eq_refl)
    as (vec & w1 & w0 & Hrun & _ & _ & Hshort).
  - repeat constructor.
  - exists vec, w1. split; [exact Hrun|]. apply Hshort. cbn. lia.
Defined.

Lemma launch_project_root_of_relative_program_sample :
  cwd quiet_env = "/" +:+ Path.join ["home"; "user"]
  /\ exists vec w1,
       wrapped_launchRequest quiet_env "app" "1.0" "key" "ios"
         (call_native quiet_env "launchRequest") (Session 1) JNull
         (JObj relative_args) initial_world
       = call_native quiet_env "launchRequest" (Session 1) JNull
           (JObj (<["args" := JArr vec]> relative_args)) w1
       /\ projectRootPath w1 = Some "/home/user/app".
Proof.
  split; [reflexivity|].
  destruct (launch_project_root_of_relative_program quiet_env "app" "1.0" "key"
              "ios" (call_native quiet_env "launchRequest") (Session 1) JNull
              relative_args ["home"; "user"] ["app"] ".vscode"
              "launchReactNative.js" initial_world eq_refl)
    as (vec & w1 & w0 & Hrun & _ & Hroot).
  - repeat constructor.
  - reflexivity.
  - repeat constructor.
  - exists vec, w1. split; [exact Hrun|exact Hroot].
Defined.

Lemma launch_sanitization_is_idempotent_sample :
  resanitized_args !! "program"
  = Some (JStr "/elsewhere/.vscode/launchReactNative.js")
  /\ 1 <= resolved_port full_args <= 65535
  /\ wrapped_launchRequest quiet_env "app" "1.0" "key" "ios"
       (call_native quiet_env "launchRequest") (Session 1) JNull
       (JObj resanitized_args) initial_world
     = call_native quiet_env "launchRequest" (Session 1) JNull
         (JObj (<["args" := JArr (sanitize "ios" full_args)]> resanitized_args))
         (launched quiet_env "app" "1.0" "key" (Session 1) resanitized_args
            "/elsewhere/.vscode/launchReactNative.js" initial_world).
Proof.
  split; [reflexivity|]. split; [vm_compute; split; discriminate|].
  apply (launch_sanitization_is_idempotent quiet_env "app" "1.0" "key" "ios"
           (call_native quiet_env "launchRequest") (Session 1) JNull
           full_args resanitized_args
           "/work/app/.vscode/launchReactNative.js"
           "/elsewhere/.vscode/launchReactNative.js" initial_world);
    try reflexivity.
  vm_compute; split; discriminate.
Defined.

End NodeDebugWrapper.

(** ** Properties of the external platform *)

Module ExternalPlatformProperties.
Import Js ExternalPlatform.

(** X18. [startPackager] asks the platform's remote extension for the port, once,
    and ends as that call does: a port is logged, in a text from which an
    integer port parses back, and the promise resolves; a rejection is
    passed on with its reason, a pending promise stays pending and an
    exception is thrown on, each without anything logged. *)
Theorem startPackager_follows_the_port (env : Env) (this : Platform) :
  exists effs c,
    startPackager env this = (effs, c)
    /\ asked effs = [remoteExtension this]
    /\ match packagerPort env (remoteExtension this) with
       | Returns (Resolved port) =>
           c = Returns (Resolved tt)
           /\ effs
              = [ GetPackagerPort (remoteExtension this);
                  LogMessage
                    ("Attaching to running packager at port: " +:+ ToString port) ]
           /\ forall n : SafeInteger,
                port = JNum n ->
                ToString port = decimal (safe_value n)
                /\ parseInt10 (JStr (ToString port)) = Some (safe_value n)
       | Returns (Rejected reason) =>
           c = Returns (Rejected reason)
           /\ effs = [GetPackagerPort (remoteExtension this)]
       | Returns Pending =>
           c = Returns Pending /\ effs = [GetPackagerPort (remoteExtension this)]
       | Throws e =>
           c = Throws e /\ effs = [GetPackagerPort (remoteExtension this)]
       end.
Proof.
  unfold startPackager.
  destruct (packagerPort env (remoteExtension this)) as [[port|reason|]|e];
    do 2 eexists; (split; [reflexivity|]); (split; [reflexivity|]);
    try (split; reflexivity).
  do 2 (split; [reflexivity|]).
  intros n ->. split; [reflexivity|].
  apply NodeDebugWrapper.parseInt10_decimal.
Qed.

(** X19. A platform that was constructed has the project root of its run options
    as project path.  Given a remote extension, the constructor makes none
    and the platform asks the given one for the port; given none, it makes
    the one at the project root, and that one is asked.  Running the app
    and enabling debugging ask no remote extension. *)
Theorem constructed_platform_asks_its_extension (env : Env)
    (options : IRunOptions) (given : option (option RemoteExtension))
    (effs : list Effect) (platform : Platform) :
  constructor env options given = (effs, Returns platform) ->
  projectPath platform = projectRoot options
  /\ runOptions platform = options
  /\ match given with
     | Some (Some extension) => effs = [] /\ remoteExtension platform = extension
     | _ =>
         effs = [MakeRemoteExtension (projectRoot options)]
         /\ make_throws env (projectRoot options) = None
         /\ remoteExtension platform = AtProjectRootPath (projectRoot options)
     end
  /\ asked (fst (startPackager env platform) ++ fst (runApp platform)
            ++ fst (enableJSDebuggingMode platform))
     = [remoteExtension platform].
Proof.
  unfold constructor. intros Hmade.
  assert (asked (fst (startPackager env platform) ++ fst (runApp platform)
                 ++ fst (enableJSDebuggingMode platform))
          = [remoteExtension platform]) as Hasked.
  { unfold startPackager.
    destruct (packagerPort env (remoteExtension platform)) as [[port|reason|]|e];
      reflexivity. }
  destruct given as [[extension|]|]; cbn in Hmade.
  - injection Hmade as <- <-. repeat split; exact Hasked.
  - destruct (make_throws env (projectRoot options)); [discriminate|].
    injection Hmade as <- <-. repeat split; exact Hasked.
  - destruct (make_throws env (projectRoot options)); [discriminate|].
    injection Hmade as <- <-. repeat split; exact Hasked.
Qed.

Lemma constructed_platform_asks_its_extension_supplied :
  constructor packager_env (mkRunOptions "/work/app") (Some (Some (Supplied 3)))
  = ([], Returns (mkPlatform (mkRunOptions "/work/app") "/work/app" (Supplied 3)))
  /\ asked (fst (startPackager packager_env
                   (mkPlatform (mkRunOptions "/work/app") "/work/app" (Supplied 3)))
            ++ fst (runApp
                      (mkPlatform (mkRunOptions "/work/app") "/work/app" (Supplied 3)))
            ++ fst (enableJSDebuggingMode
                      (mkPlatform (mkRunOptions "/work/app") "/work/app" (Supplied 3))))
     = [Supplied 3].
Proof.
  split; [reflexivity|].
  destruct (constructed_platform_asks_its_extension packager_env
              (mkRunOptions "/work/app") (Some (Some (Supplied 3))) []
              (mkPlatform (mkRunOptions "/work/app") "/work/app" (Supplied 3))
              eq_refl)
    as (_ & _ & _ & Hasked).
  exact Hasked.
Defined.

End ExternalPlatformProperties.
